(** * MobiFlow hub optimiser: the hub score calculator and the candidate grid search

    A shallow embedding of [src/hub_optimiser.py]:
    [MobilityDataCollector.calculate_distance_to_transport],
    [HubScoreCalculator.calculate_hub_score] with its three helpers, and
    [generate_hub_recommendations].

    Numbers.  Python floats are modelled by exact rationals [Q]; the only
    non-finite value the scorer ever holds is [float('inf')], the initial value
    of the running minima, so a float that may still be the sentinel has type
    [PyFloat.t].  Binary64 rounding error is not modelled: [+], [-], [*] and
    [/] are the exact operations and equality of scores is [Qeq].

    Collaborators that are not part of the repository are parameters:
    [geodesic] stands for [geopy.distance.geodesic(a, b).meters] and
    [sort_values] for [DataFrame.sort_values('hub_score', ascending=False)].
    geopy measures a distance only between points whose latitude lies in
    [[-90, 90]] and raises [ValueError] on any other; that failure is not part
    of the model, which describes the code on the points geopy takes
    ([geopy_accepts]).  Of the sort only the contract
    [sorts_descending] is used: which order pandas gives to rows of equal
    score is not decided by the repository. *)

From Stdlib Require Import QArith Qminmax Qround Qabs Lqa Lia ZArith.
From Stdlib Require Import List String Bool Permutation Sorted.
From Stdlib Require PrimFloat Uint63.
Import ListNotations.

Open Scope Q_scope.

(** ** Python values *)

(** The exceptions the modelled code can raise. *)
Inductive exn : Type :=
| TypeError (msg : string)
| ValueError (msg : string)
| ZeroDivisionError (msg : string).

(** A computation that returns or raises. *)
Definition result (A : Type) : Type := (exn + A)%type.

Definition ret {A : Type} (a : A) : result A := inr a.
Definition raise {A : Type} (e : exn) : result A := inl e.

Definition bind {A B : Type} (m : result A) (k : A -> result B) : result B :=
  match m with
  | inl e => inl e
  | inr a => k a
  end.

Notation "x <- m ;; k" := (bind m (fun x => k))
  (at level 61, m at next level, right associativity).

(** A property of the value of a computation, should it return. *)
Definition when_returns {A : Type} (m : result A) (P : A -> Prop) : Prop :=
  match m with
  | inl _ => True
  | inr a => P a
  end.

(** [for x in xs: body] when the body may raise. *)
Fixpoint mapM {A B : Type} (f : A -> result B) (xs : list A) : result (list B) :=
  match xs with
  | [] => ret []
  | x :: xs' => y <- f x ;; ys <- mapM f xs' ;; ret (y :: ys)
  end.

Definition Qltb (x y : Q) : bool := negb (Qle_bool y x).

(** The builtins [max(a, b)] and [min(a, b)]: the first argument is kept
    unless the second is strictly better. *)
Definition py_max (a b : Q) : Q := if Qltb a b then b else a.
Definition py_min (a b : Q) : Q := if Qltb b a then b else a.

(** [min(xs)] over a non-empty list given as head and tail. *)
Definition py_min_list (x : Q) (xs : list Q) : Q := fold_left py_min xs x.

(** Round half to even, the rule of the builtin [round]. *)
Definition round_half_even (x : Q) : Z :=
  let f := Qfloor x in
  match Qcompare (x - inject_Z f) (1 # 2) with
  | Lt => f
  | Gt => (f + 1)%Z
  | Eq => if Z.even f then f else (f + 1)%Z
  end.

(** [round(x, ndigits)]. *)
Definition round (x : Q) (ndigits : nat) : Q :=
  let scale := Z.to_pos (10 ^ Z.of_nat ndigits) in
  Qred (Qmake (round_half_even (x * inject_Z (Zpos scale))) scale).

Module PyFloat.

(** A float that is finite or the sentinel [float('inf')]. *)
Inductive t : Type :=
| Fin (q : Q)
| Inf.

(** [a < b] *)
Definition ltb (a b : t) : bool :=
  match a, b with
  | Fin x, Fin y => Qltb x y
  | Fin _, Inf => true
  | Inf, _ => false
  end.

(** [a <= b] *)
Definition leb (a b : t) : bool :=
  match a, b with
  | Fin x, Fin y => Qle_bool x y
  | _, Inf => true
  | Inf, Fin _ => false
  end.

(** [min(a, b)] *)
Definition min (a b : t) : t := if ltb b a then b else a.

(** The running minimum of a loop [m = min(m, d)] over finite distances. *)
Definition running_min (ds : list Q) (m : t) : t :=
  fold_left (fun m d => min m (Fin d)) ds m.

(** [a / c] for a positive finite constant [c]: [inf / c] is [inf]. *)
Definition div (a : t) (c : Q) : t :=
  match a with
  | Fin x => Fin (x / c)
  | Inf => Inf
  end.

(** [min(1.0, a)], always finite. *)
Definition min_one (a : t) : Q :=
  match a with
  | Fin x => py_min 1 x
  | Inf => 1
  end.

(** [max(0, base - (a - 500) / 100)], always finite:
    for [a = inf] the second argument is [-inf] and the maximum is [0]. *)
Definition decay (base : Q) (a : t) : Q :=
  match a with
  | Fin x => py_max 0 (base - (x - 500) / 100)
  | Inf => 0
  end.

(** The order on distances behind [leb]. *)
Definition le (a b : t) : Prop :=
  match a, b with
  | Fin x, Fin y => x <= y
  | _, Inf => True
  | Inf, Fin _ => False
  end.

(** Equality up to the representation of the rational. *)
Definition eq (a b : t) : Prop :=
  match a, b with
  | Fin x, Fin y => x == y
  | Inf, Inf => True
  | _, _ => False
  end.

End PyFloat.

(** ** Data frames *)

Definition point : Type := (Q * Q)%type.

Module Bike.
(** A row of [bikes_df]. *)
Record row : Type := {
  station_id : Z;
  name : string;
  latitude : Q;
  longitude : Q;
  available_bikes : Z;
  available_stands : Z;
  total_capacity : Z
}.

(** The derived column [availability_score]. *)
Definition availability_score (s : row) : Q :=
  inject_Z (available_bikes s + available_stands s).

Definition position (s : row) : point := (latitude s, longitude s).
End Bike.

Module Transport.
(** A row of [bus_df] or [luas_df].  Bus rows carry [stop_name] and have
    neither a [name] nor a [station_name] column; Luas rows have
    [station_name]. *)
Record row : Type := {
  name : option string;
  station_name : option string;
  stop_name : option string;
  latitude : Q;
  longitude : Q
}.

Definition position (s : row) : point := (latitude s, longitude s).
End Transport.

(** The dict returned by [calculate_distance_to_transport]. *)
Record Proximity : Type := {
  distance_meters : PyFloat.t;
  nearest_station : string;
  within_500m : bool;
  within_200m : bool
}.

(** The object state of [HubScoreCalculator]. *)
Record HubScoreCalculator : Type := {
  bikes_df : list Bike.row;
  bus_df : list Transport.row;
  luas_df : list Transport.row
}.

(** The local variables of [calculate_hub_score] before the dict is built. *)
Module Raw.
Record t : Type := {
  bus_proximity : Proximity;
  luas_proximity : Proximity;
  transport_score : Q;
  bike_demand : Q;
  demand_score : Q;
  gap_score : Q;
  accessibility_score : Q;
  population_score : Q;
  total_score : Q
}.
End Raw.

(** The ['components'] entry of the returned dict. *)
Record Components : Type := {
  nearest_bus : string;
  bus_distance : PyFloat.t;
  nearest_luas : string;
  luas_distance : PyFloat.t;
  bike_demand : Q
}.

(** The dict returned by [calculate_hub_score]. *)
Record ScoreBreakdown : Type := {
  total_score : Q;
  transport_score : Q;
  demand_score : Q;
  gap_score : Q;
  accessibility_score : Q;
  population_score : Q;
  components : Components
}.

(** One entry of [results] in [generate_hub_recommendations]. *)
Module Rec.
Record t : Type := {
  latitude : Q;
  longitude : Q;
  hub_score : Q;
  transport_score : Q;
  demand_score : Q;
  gap_score : Q;
  accessibility_score : Q;
  nearest_bus : string;
  nearest_luas : string;
  bike_demand : Q
}.
End Rec.

Record Bounds : Type := {
  north : Q;
  south : Q;
  east : Q;
  west : Q
}.

(** The points geopy takes: a latitude within [[-90, 90]]; a longitude is
    brought into range by geopy itself. *)
Definition geopy_accepts (p : point) : Prop := -90 <= fst p /\ fst p <= 90.

(** Every row of the three frames has a position geopy takes. *)
Definition frames_accepted (self : HubScoreCalculator) : Prop :=
  Forall (fun station => geopy_accepts (Bike.position station)) (bikes_df self)
  /\ Forall (fun stop => geopy_accepts (Transport.position stop)) (bus_df self)
  /\ Forall (fun stop => geopy_accepts (Transport.position stop)) (luas_df self).

(** ** The scorer *)

Section Scorer.

(** [geodesic(a, b).meters] of geopy, on the points it takes. *)
Variable geodesic : point -> point -> Q.

(** The loop of [calculate_distance_to_transport]: one row updates
    [(min_distance, nearest_transport)]. *)
Definition nearest_step (lat lng : Q)
    (st : PyFloat.t * option Transport.row) (transport : Transport.row)
    : PyFloat.t * option Transport.row :=
  let '(min_distance, nearest_transport) := st in
  let distance := geodesic (lat, lng) (Transport.position transport) in
  if PyFloat.ltb (PyFloat.Fin distance) min_distance
  then (PyFloat.Fin distance, Some transport)
  else (min_distance, nearest_transport).

Definition nearest_scan (lat lng : Q) (transport_df : list Transport.row)
    : PyFloat.t * option Transport.row :=
  fold_left (nearest_step lat lng) transport_df (PyFloat.Inf, None).

(** [nearest_transport['name'] if 'name' in nearest_transport
     else nearest_transport.get('station_name', 'Unknown')] *)
Definition station_label (nearest_transport : Transport.row) : string :=
  match Transport.name nearest_transport with
  | Some n => n
  | None =>
      match Transport.station_name nearest_transport with
      | Some s => s
      | None => "Unknown"%string
      end
  end.

(** [MobilityDataCollector.calculate_distance_to_transport].  With no row,
    [nearest_transport] is still [None] when the dict is built, and
    ['name' in None] raises. *)
Definition calculate_distance_to_transport (lat lng : Q)
    (transport_df : list Transport.row) : result Proximity :=
  let '(min_distance, nearest_transport) := nearest_scan lat lng transport_df in
  match nearest_transport with
  | None => raise (TypeError "argument of type 'NoneType' is not iterable")
  | Some row =>
      ret {| distance_meters := min_distance;
             nearest_station := station_label row;
             within_500m := PyFloat.leb min_distance (PyFloat.Fin 500);
             within_200m := PyFloat.leb min_distance (PyFloat.Fin 200) |}
  end.

(** The loop of [_calculate_bike_demand] on [(nearby_demand, station_count)]. *)
Definition demand_step (lat lng : Q) (st : Q * Z) (station : Bike.row) : Q * Z :=
  let '(nearby_demand, station_count) := st in
  let distance := geodesic (lat, lng) (Bike.position station) in
  if Qle_bool distance 1000
  then
    let weight := py_max 0 (1 - distance / 1000) in
    (nearby_demand + Bike.availability_score station * weight,
     (station_count + 1)%Z)
  else (nearby_demand, station_count).

(** [HubScoreCalculator._calculate_bike_demand] *)
Definition _calculate_bike_demand (self : HubScoreCalculator) (lat lng : Q) : Q :=
  let '(nearby_demand, station_count) :=
    fold_left (demand_step lat lng) (bikes_df self) (0, 0%Z) in
  nearby_demand / inject_Z (Z.max station_count 1).

(** The two running minima of [_calculate_infrastructure_gap]. *)
Definition min_bike_distance (self : HubScoreCalculator) (lat lng : Q) : PyFloat.t :=
  fold_left
    (fun m station =>
       PyFloat.min m (PyFloat.Fin (geodesic (lat, lng) (Bike.position station))))
    (bikes_df self) PyFloat.Inf.

Definition min_bus_distance (self : HubScoreCalculator) (lat lng : Q) : PyFloat.t :=
  fold_left
    (fun m stop =>
       PyFloat.min m (PyFloat.Fin (geodesic (lat, lng) (Transport.position stop))))
    (bus_df self) PyFloat.Inf.

(** The last three statements of [_calculate_infrastructure_gap]. *)
Definition gap_of_distances (min_bike_distance min_bus_distance : PyFloat.t) : Q :=
  let bike_gap := PyFloat.min_one (PyFloat.div min_bike_distance 1000) in
  let bus_gap := PyFloat.min_one (PyFloat.div min_bus_distance 500) in
  (bike_gap + bus_gap) / 2.

(** [HubScoreCalculator._calculate_infrastructure_gap] *)
Definition _calculate_infrastructure_gap (self : HubScoreCalculator) (lat lng : Q) : Q :=
  gap_of_distances (min_bike_distance self lat lng) (min_bus_distance self lat lng).

Definition key_locations : list point :=
  [ (53.3498, -6.2603);   (* City centre *)
    (53.3446, -6.2691);   (* Temple Bar *)
    (53.3387, -6.2613) ]. (* St. Stephen's Green *)

(** [HubScoreCalculator._calculate_accessibility_score]; [min] of a list
    raises on the empty list. *)
Definition _calculate_accessibility_score (lat lng : Q) : result Q :=
  match map (fun loc => geodesic (lat, lng) loc) key_locations with
  | [] => raise (ValueError "min() arg is an empty sequence")
  | d :: ds =>
      let min_distance_to_amenity := py_min_list d ds in
      ret (py_max 0 (1 - min_distance_to_amenity / 2000))
  end.

(** The bus and Luas branches of the transport score. *)
Definition bus_points (bus_proximity : Proximity) : Q :=
  if within_200m bus_proximity then 15
  else if within_500m bus_proximity then 10
  else PyFloat.decay 10 (distance_meters bus_proximity).

Definition luas_points (luas_proximity : Proximity) : Q :=
  if within_500m luas_proximity then 20
  else PyFloat.decay 15 (distance_meters luas_proximity).

(** [calculate_hub_score] up to, and excluding, the rounding of the dict. *)
Definition hub_score_terms (self : HubScoreCalculator) (lat lng : Q) : result Raw.t :=
  (* 1. Transport Connectivity Score *)
  bus_proximity <- calculate_distance_to_transport lat lng (bus_df self) ;;
  luas_proximity <- calculate_distance_to_transport lat lng (luas_df self) ;;
  let transport_score := 0 in
  let transport_score := transport_score + bus_points bus_proximity in
  let transport_score := transport_score + luas_points luas_proximity in
  (* 2. Bike Demand Score *)
  let bike_demand := _calculate_bike_demand self lat lng in
  let demand_score := py_min (bike_demand / 20 * 25) 25 in
  (* 3. Infrastructure Gap Score *)
  let gap_score := _calculate_infrastructure_gap self lat lng * 20 in
  (* 4. Accessibility Score *)
  accessibility <- _calculate_accessibility_score lat lng ;;
  let accessibility_score := accessibility * 15 in
  (* 5. Population Density Score *)
  let population_score := 5 in
  let total_score :=
    transport_score + demand_score + gap_score + accessibility_score
    + population_score in
  ret {| Raw.bus_proximity := bus_proximity;
         Raw.luas_proximity := luas_proximity;
         Raw.transport_score := transport_score;
         Raw.bike_demand := bike_demand;
         Raw.demand_score := demand_score;
         Raw.gap_score := gap_score;
         Raw.accessibility_score := accessibility_score;
         Raw.population_score := population_score;
         Raw.total_score := total_score |}.

(** The [return] statement of [calculate_hub_score]. *)
Definition score_dict (r : Raw.t) : ScoreBreakdown :=
  {| total_score := round (Raw.total_score r) 2;
     transport_score := round (Raw.transport_score r) 2;
     demand_score := round (Raw.demand_score r) 2;
     gap_score := round (Raw.gap_score r) 2;
     accessibility_score := round (Raw.accessibility_score r) 2;
     population_score := round (Raw.population_score r) 2;
     components :=
       {| nearest_bus := nearest_station (Raw.bus_proximity r);
          bus_distance := distance_meters (Raw.bus_proximity r);
          nearest_luas := nearest_station (Raw.luas_proximity r);
          luas_distance := distance_meters (Raw.luas_proximity r);
          bike_demand := Raw.bike_demand r |} |}.

(** [HubScoreCalculator.calculate_hub_score] *)
Definition calculate_hub_score (self : HubScoreCalculator) (lat lng : Q)
    : result ScoreBreakdown :=
  r <- hub_score_terms self lat lng ;;
  ret (score_dict r).

End Scorer.

(** ** The candidate grid search *)

(** [dublin_bounds] of [generate_hub_recommendations]. *)
Definition dublin_bounds : Bounds :=
  {| north := 53.37; south := 53.32; east := -6.22; west := -6.30 |}.

(** The nested loop that fills [candidate_locations]:
    [for i in range(n): for j in range(n): ...]. *)
Definition lattice (bounds : Bounds) (lat_step lng_step : Q) (n : nat) : list point :=
  flat_map
    (fun i =>
       map
         (fun j =>
            let lat := south bounds + inject_Z (Z.of_nat i) * lat_step in
            let lng := west bounds + inject_Z (Z.of_nat j) * lng_step in
            (lat, lng))
         (seq 0 n))
    (seq 0 n).

(** The candidate lattice for a bounding box and a resolution; the source has
    the resolution 20 written out.  Dividing by a zero resolution raises. *)
Definition candidate_locations (bounds : Bounds) (resolution : nat) : result (list point) :=
  match resolution with
  | O => raise (ZeroDivisionError "float division by zero")
  | S _ =>
      let lat_step := (north bounds - south bounds) / inject_Z (Z.of_nat resolution) in
      let lng_step := (east bounds - west bounds) / inject_Z (Z.of_nat resolution) in
      ret (lattice bounds lat_step lng_step resolution)
  end.

(** [DataFrame.head(n)]: the first [n] rows, or all but the last [-n] rows
    when [n] is negative. *)
Definition head {A : Type} (df : list A) (n : Z) : list A :=
  if (0 <=? n)%Z then firstn (Z.to_nat n) df
  else firstn (List.length df - Z.to_nat (- n)) df.

(** What [sort_values('hub_score', ascending=False)] promises with the default
    [kind='quicksort']: the rows are rearranged into non-increasing order of
    [hub_score]; the order among rows of equal score is left open. *)
Definition score_ge (a b : Rec.t) : Prop := Rec.hub_score b <= Rec.hub_score a.

Definition sorts_descending (sort_values : list Rec.t -> list Rec.t) : Prop :=
  forall df, Permutation df (sort_values df) /\ Sorted score_ge (sort_values df).

(** The rows kept from a frame keep ties in their input order when, for every
    score, the kept rows of that score are the first rows of that score in
    the frame, in the same order. *)
Definition has_score (s : Q) (r : Rec.t) : bool := Qeq_bool (Rec.hub_score r) s.

Definition keeps_tie_order (df kept : list Rec.t) : Prop :=
  forall s, exists rest,
    filter (has_score s) df = filter (has_score s) kept ++ rest.

Section GridSearch.

Variable geodesic : point -> point -> Q.
Variable sort_values : list Rec.t -> list Rec.t.

(** The body of the loop that fills [results]. *)
Definition score_candidate (calculator : HubScoreCalculator) (loc : point) : result Rec.t :=
  let '(lat, lng) := loc in
  score_data <- calculate_hub_score geodesic calculator lat lng ;;
  ret {| Rec.latitude := lat;
         Rec.longitude := lng;
         Rec.hub_score := total_score score_data;
         Rec.transport_score := transport_score score_data;
         Rec.demand_score := demand_score score_data;
         Rec.gap_score := gap_score score_data;
         Rec.accessibility_score := accessibility_score score_data;
         Rec.nearest_bus := nearest_bus (components score_data);
         Rec.nearest_luas := nearest_luas (components score_data);
         Rec.bike_demand := bike_demand (components score_data) |}.

(** [results] for a bounding box and a resolution. *)
Definition score_lattice (calculator : HubScoreCalculator) (bounds : Bounds)
    (resolution : nat) : result (list Rec.t) :=
  locations <- candidate_locations bounds resolution ;;
  mapM (score_candidate calculator) locations.

(** [generate_hub_recommendations] over a bounding box, a resolution and the
    three data frames. *)
Definition grid_search (bounds : Bounds) (resolution : nat)
    (calculator : HubScoreCalculator) (num_locations : Z) : result (list Rec.t) :=
  results <- score_lattice calculator bounds resolution ;;
  let recommendations_df := head (sort_values results) num_locations in
  ret recommendations_df.

End GridSearch.

(** ** The lattice in binary64

    The lattice of the source evaluated with IEEE 754 binary64 arithmetic, the
    arithmetic of Python floats, to cross-check the rational model. *)

Module Binary64.

Import PrimFloat.

Definition of_int (n : nat) : PrimFloat.float :=
  PrimFloat.of_uint63 (Uint63.of_Z (Z.of_nat n)).

#[warnings="-inexact-float"] Definition north : PrimFloat.float := 53.37%float.
#[warnings="-inexact-float"] Definition south : PrimFloat.float := 53.32%float.
#[warnings="-inexact-float"] Definition east : PrimFloat.float := (-6.22)%float.
#[warnings="-inexact-float"] Definition west : PrimFloat.float := (-6.30)%float.

Definition candidate_locations : list (PrimFloat.float * PrimFloat.float) :=
  let lat_step := PrimFloat.div (PrimFloat.sub north south) (of_int 20) in
  let lng_step := PrimFloat.div (PrimFloat.sub east west) (of_int 20) in
  flat_map
    (fun i =>
       map
         (fun j =>
            (PrimFloat.add south (PrimFloat.mul (of_int i) lat_step),
             PrimFloat.add west (PrimFloat.mul (of_int j) lng_step)))
         (seq 0 20))
    (seq 0 20).

End Binary64.

(** ** The tables of the source *)

Definition bus_stop (stop_name : string) (lat lng : Q) : Transport.row :=
  {| Transport.name := None;
     Transport.station_name := None;
     Transport.stop_name := Some stop_name;
     Transport.latitude := lat;
     Transport.longitude := lng |}.

Definition luas_station (station_name : string) (lat lng : Q) : Transport.row :=
  {| Transport.name := None;
     Transport.station_name := Some station_name;
     Transport.stop_name := None;
     Transport.latitude := lat;
     Transport.longitude := lng |}.

(** The frame built by [get_bus_stops_data]. *)
Definition bus_stops : list Transport.row :=
  [ bus_stop "Heuston Station" 53.3468 (-6.2928);
    bus_stop "Smithfield" 53.3478 (-6.2792);
    bus_stop "Trinity College" 53.3442 (-6.2540);
    bus_stop "Merrion Square" 53.3382 (-6.2534);
    bus_stop "Dame Street" 53.3437 (-6.2671);
    bus_stop "IFSC" 53.3501 (-6.2395);
    bus_stop "Grand Canal Dock" 53.3394 (-6.2348);
    bus_stop "St. Stephen's Green" 53.3390 (-6.2610);
    bus_stop "Rathmines" 53.3253 (-6.2639);
    bus_stop "Parnell Square" 53.3530 (-6.2645);
    bus_stop "Drumcondra" 53.3715 (-6.2570) ].

(** The frame built by [get_luas_stations_data]. *)
Definition luas_stations : list Transport.row :=
  [ luas_station "St. Stephen's Green" 53.3387 (-6.2613);
    luas_station "Trinity" 53.3447 (-6.2589);
    luas_station "Westmoreland" 53.3450 (-6.2589);
    luas_station "Abbey Street" 53.3484 (-6.2589);
    luas_station "Heuston" 53.3467 (-6.2929);
    luas_station "Museum" 53.3474 (-6.2867);
    luas_station "Smithfield" 53.3475 (-6.2785);
    luas_station "Four Courts" 53.3467 (-6.2743) ].

(** [generate_hub_recommendations(num_locations)]; the bike frame comes from
    the live feed or from the sample table and is an argument here. *)
Definition generate_hub_recommendations (geodesic : point -> point -> Q)
    (sort_values : list Rec.t -> list Rec.t) (bikes : list Bike.row)
    (num_locations : Z) : result (list Rec.t) :=
  let calculator :=
    {| bikes_df := bikes; bus_df := bus_stops; luas_df := luas_stations |} in
  grid_search geodesic sort_values dublin_bounds 20 calculator num_locations.

(** ** Instances used to run the model *)

(** A stand-in for the geodesic distance, in metres: 111 km per degree of
    latitude plus 66 km per degree of longitude. *)
Definition taxicab (a b : point) : Q :=
  111000 * Qabs (fst a - fst b) + 66000 * Qabs (snd a - snd b).

(** Insertion into a list sorted by non-increasing score; [after_ties] says
    on which side of the rows of equal score the new row goes. *)
Fixpoint insert_desc (after_ties : bool) (x : Rec.t) (l : list Rec.t) : list Rec.t :=
  match l with
  | [] => [x]
  | y :: l' =>
      if (if after_ties
          then Qle_bool (Rec.hub_score x) (Rec.hub_score y)
          else Qltb (Rec.hub_score x) (Rec.hub_score y))
      then y :: insert_desc after_ties x l'
      else x :: l
  end.

(** Two sorts that meet [sorts_descending]: the first keeps ties in input
    order, the second reverses them.  Neither is the sort of pandas; they
    run the contract on concrete frames. *)
Definition stable_sort (df : list Rec.t) : list Rec.t :=
  fold_right (insert_desc false) [] df.

Definition reversing_sort (df : list Rec.t) : list Rec.t :=
  fold_right (insert_desc true) [] df.

Definition trinity_bike : Bike.row :=
  {| Bike.station_id := 4; Bike.name := "Trinity College";
     Bike.latitude := 53.3439; Bike.longitude := -6.2546;
     Bike.available_bikes := 12; Bike.available_stands := 8;
     Bike.total_capacity := 25 |}.

Definition dame_bike : Bike.row :=
  {| Bike.station_id := 5; Bike.name := "Dame Street";
     Bike.latitude := 53.3434; Bike.longitude := -6.2674;
     Bike.available_bikes := 3; Bike.available_stands := 17;
     Bike.total_capacity := 20 |}.

(** A box and frames far from each other and from the amenities: every
    lattice point gets the same score. *)
Definition unit_box : Bounds :=
  {| north := 1; south := 0; east := 1; west := 0 |}.

Definition remote_calculator : HubScoreCalculator :=
  {| bikes_df := [];
     bus_df := [bus_stop "Remote" 10 10];
     luas_df := [luas_station "Remote" 10 10] |}.

Definition sample_calculator : HubScoreCalculator :=
  {| bikes_df := [trinity_bike; dame_bike];
     bus_df := bus_stops;
     luas_df := luas_stations |}.

(** ** The words of the specification *)

Module Spec.

(** [d] is the least geodesic distance from the point to a reference set
    whose distances are [ds]. *)
Definition nearest_distance (ds : list Q) (d : Q) : Prop :=
  In d ds /\ forall d', In d' ds -> d <= d'.

(** The distances from a point to the rows of a frame, in row order. *)
Definition transport_distances (geodesic : point -> point -> Q) (p : point)
    (df : list Transport.row) : list Q :=
  map (fun r => geodesic p (Transport.position r)) df.

Definition bike_distances (geodesic : point -> point -> Q) (p : point)
    (df : list Bike.row) : list Q :=
  map (fun s => geodesic p (Bike.position s)) df.

(** 15 within 200 m, else 10 within 500 m, else [max(0, 10 - (d - 500)/100)]. *)
Definition bus_contribution (d : Q) : Q :=
  if Qle_bool d 200 then 15
  else if Qle_bool d 500 then 10
  else Qmax 0 (10 - (d - 500) / 100).

(** 20 within 500 m, else [max(0, 15 - (d - 500)/100)]. *)
Definition rail_contribution (d : Q) : Q :=
  if Qle_bool d 500 then 20
  else Qmax 0 (15 - (d - 500) / 100).

Definition Qsum (xs : list Q) : Q := fold_right Qplus 0 xs.

(** The stations within 1000 m, each paired with its distance. *)
Definition stations_within (geodesic : point -> point -> Q) (p : point)
    (bikes : list Bike.row) : list (Bike.row * Q) :=
  filter (fun sd => Qle_bool (snd sd) 1000)
         (map (fun s => (s, geodesic p (Bike.position s))) bikes).

(** Sum of [availability_score * max(0, 1 - d/1000)] over these stations,
    divided by their number, or by 1 when there is none. *)
Definition raw_demand (geodesic : point -> point -> Q) (p : point)
    (bikes : list Bike.row) : Q :=
  let near := stations_within geodesic p bikes in
  let total :=
    Qsum (map (fun sd => Bike.availability_score (fst sd)
                         * Qmax 0 (1 - snd sd / 1000)) near) in
  let count := List.length near in
  total / (match count with O => 1 | S _ => inject_Z (Z.of_nat count) end).

(** [min(raw_demand/20 * 25, 25)] *)
Definition demand_score (raw : Q) : Q := Qmin (raw / 20 * 25) 25.

(** A distance divided by its scale and clamped to [[0, 1]]; an infinite
    distance is the largest gap. *)
Definition gap_norm (d : PyFloat.t) (scale : Q) : Q :=
  match d with
  | PyFloat.Fin x => Qmax 0 (Qmin 1 (x / scale))
  | PyFloat.Inf => 1
  end.

(** [20 * (bike_gap_norm + bus_gap_norm) / 2] *)
Definition gap_score (bike_distance bus_distance : PyFloat.t) : Q :=
  20 * (gap_norm bike_distance 1000 + gap_norm bus_distance 500) / 2.

End Spec.


(** The sum of the five sub-scores as the dict reports them. *)
Definition reported_sum (s : ScoreBreakdown) : Q :=
  transport_score s + demand_score s + gap_score s + accessibility_score s
  + population_score s.

(** ** Data collection

    [MobilityDataCollector.get_dublin_bikes_data] with its two helpers.  The
    HTTP exchange and the clock are inputs: [outcome] is what the request
    produced and [datetime] what [datetime.now()] returned. *)

(** [needle in hay] for strings. *)
Definition contains (needle hay : string) : bool :=
  match index 0 needle hay with
  | Some _ => true
  | None => false
  end.

(** [int(x)]: truncation toward zero. *)
Definition py_int (x : Q) : Z := Z.quot (Qnum x) (Zpos (Qden x)).

(** What the collector reads of a [datetime]: its hour, and the instant. *)
Record datetime : Type := {
  hour : Z;
  timestamp : Q
}.

Module Ratio.

(** The quotient of two integer columns: finite, or what a zero divisor
    gives. *)
Inductive t : Type :=
| Fin (q : Q)
| PosInf
| NegInf
| NaN.

(** [a / b] on integer columns; no exception on [b = 0]. *)
Definition div (a b : Z) : t :=
  if (b =? 0)%Z
  then if (0 <? a)%Z then PosInf else if (a <? 0)%Z then NegInf else NaN
  else Fin (inject_Z a / inject_Z b).

(** [x > c]; a comparison with NaN is false. *)
Definition gt (x : t) (c : Q) : bool :=
  match x with
  | Fin q => Qltb c q
  | PosInf => true
  | NegInf => false
  | NaN => false
  end.

End Ratio.

Module Station.
(** A row of the bike frame with all its columns; [base] holds the columns
    the scorer reads and [availability_score] is derived from it. *)
Record row : Type := {
  base : Bike.row;
  status : string;
  last_update : datetime;
  banking : bool;
  bonus : bool;
  utilization_rate : Ratio.t;
  demand_indicator : string
}.
End Station.

(** [np.where(u > 0.8, 'High', np.where(u > 0.5, 'Medium', 'Low'))] *)
Definition demand_level (u : Ratio.t) : string :=
  if Ratio.gt u 0.8 then "High"%string
  else if Ratio.gt u 0.5 then "Medium"%string
  else "Low"%string.

(** The derived columns, computed once the frame is built. *)
Definition derive (b : Bike.row) (status : string) (last_update : datetime)
    (banking bonus : bool) : Station.row :=
  let utilization_rate :=
    Ratio.div (Bike.available_bikes b) (Bike.total_capacity b) in
  {| Station.base := b;
     Station.status := status;
     Station.last_update := last_update;
     Station.banking := banking;
     Station.bonus := bonus;
     Station.utilization_rate := utilization_rate;
     Station.demand_indicator := demand_level utilization_rate |}.

Module Sample.
(** An entry of [sample_stations]. *)
Record station : Type := {
  station_id : Z;
  name : string;
  lat : Q;
  lng : Q;
  bikes : Z;
  stands : Z;
  capacity : Z
}.
End Sample.

Definition sample_stations : list Sample.station :=
  [ {| Sample.station_id := 1; Sample.name := "Heuston Station";
       Sample.lat := 53.3464; Sample.lng := -6.2921;
       Sample.bikes := 5; Sample.stands := 10; Sample.capacity := 20 |};
    {| Sample.station_id := 2; Sample.name := "Smithfield";
       Sample.lat := 53.3475; Sample.lng := -6.2785;
       Sample.bikes := 2; Sample.stands := 8; Sample.capacity := 15 |};
    {| Sample.station_id := 3; Sample.name := "Merrion Square East";
       Sample.lat := 53.3379; Sample.lng := -6.2537;
       Sample.bikes := 7; Sample.stands := 5; Sample.capacity := 20 |};
    {| Sample.station_id := 4; Sample.name := "Trinity College";
       Sample.lat := 53.3439; Sample.lng := -6.2546;
       Sample.bikes := 12; Sample.stands := 8; Sample.capacity := 25 |};
    {| Sample.station_id := 5; Sample.name := "Dame Street";
       Sample.lat := 53.3434; Sample.lng := -6.2674;
       Sample.bikes := 3; Sample.stands := 17; Sample.capacity := 20 |};
    {| Sample.station_id := 6; Sample.name := "IFSC";
       Sample.lat := 53.3498; Sample.lng := -6.2398;
       Sample.bikes := 8; Sample.stands := 12; Sample.capacity := 20 |};
    {| Sample.station_id := 7; Sample.name := "Grand Canal Dock";
       Sample.lat := 53.3391; Sample.lng := -6.2351;
       Sample.bikes := 15; Sample.stands := 5; Sample.capacity := 25 |};
    {| Sample.station_id := 8; Sample.name := "St. Stephen's Green";
       Sample.lat := 53.3387; Sample.lng := -6.2613;
       Sample.bikes := 6; Sample.stands := 14; Sample.capacity := 20 |};
    {| Sample.station_id := 9; Sample.name := "Rathmines";
       Sample.lat := 53.3250; Sample.lng := -6.2642;
       Sample.bikes := 4; Sample.stands := 11; Sample.capacity := 15 |};
    {| Sample.station_id := 10; Sample.name := "Parnell Square";
       Sample.lat := 53.3527; Sample.lng := -6.2648;
       Sample.bikes := 9; Sample.stands := 11; Sample.capacity := 20 |};
    {| Sample.station_id := 11; Sample.name := "Drumcondra";
       Sample.lat := 53.3712; Sample.lng := -6.2573;
       Sample.bikes := 7; Sample.stands := 8; Sample.capacity := 15 |} ].

(** The rush-hour factor of a station. *)
Definition bikes_factor (hour : Z) (name : string) : Q :=
  if ((7 <=? hour) && (hour <=? 9))%Z
  then if contains "Rathmines" name || contains "Drumcondra" name then 0.7 else 1.2
  else if ((17 <=? hour) && (hour <=? 19))%Z
  then if contains "Dame" name || contains "IFSC" name then 0.6 else 1.1
  else 1.0.

(** The body of the loop of [_get_sample_dublin_bikes_data]. *)
Definition sample_row (current_time : datetime) (station : Sample.station)
    : Station.row :=
  let hour := hour current_time in
  let bikes_factor := bikes_factor hour (Sample.name station) in
  let adjusted_bikes :=
    Z.max 0 (Z.min (Sample.capacity station)
                   (py_int (inject_Z (Sample.bikes station) * bikes_factor))) in
  let adjusted_stands := (Sample.capacity station - adjusted_bikes)%Z in
  derive
    {| Bike.station_id := Sample.station_id station;
       Bike.name := Sample.name station;
       Bike.latitude := Sample.lat station;
       Bike.longitude := Sample.lng station;
       Bike.available_bikes := adjusted_bikes;
       Bike.available_stands := adjusted_stands;
       Bike.total_capacity := Sample.capacity station |}
    (if ((0 <? adjusted_bikes) || (0 <? adjusted_stands))%Z
     then "OPEN"%string else "CLOSED"%string)
    current_time true false.

(** [MobilityDataCollector._get_sample_dublin_bikes_data] *)
Definition _get_sample_dublin_bikes_data (current_time : datetime)
    : list Station.row :=
  map (sample_row current_time) sample_stations.

Module Api.
(** A station object of the JCDecaux feed; a key may be absent. *)
Record latlng : Type := {
  lat : option Q;
  lng : option Q
}.

Record station : Type := {
  number : option Z;
  name : option string;
  position : option latlng;
  available_bikes : option Z;
  available_bike_stands : option Z;
  bike_stands : option Z;
  status : option string;
  last_update : option Z;
  banking : option bool;
  bonus : option bool
}.
End Api.

(** What can go wrong inside the [try] block of [get_dublin_bikes_data]. *)
Inductive failure : Type :=
| KeyError (key : string)
| OtherError (what : string).

Definition attempt (A : Type) : Type := (failure + A)%type.

(** [d[key]] *)
Definition item {A : Type} (key : string) (value : option A) : attempt A :=
  match value with
  | Some a => inr a
  | None => inl (KeyError key)
  end.

(** [d.get(key, default)] *)
Definition get {A : Type} (value : option A) (default : A) : A :=
  match value with
  | Some a => a
  | None => default
  end.

Definition and_then {A B : Type} (m : attempt A) (k : A -> attempt B) : attempt B :=
  match m with
  | inl e => inl e
  | inr a => k a
  end.

Notation "x <~ m ;; k" := (and_then m (fun x => k))
  (at level 61, m at next level, right associativity).

Fixpoint for_each {A B : Type} (f : A -> attempt B) (xs : list A) : attempt (list B) :=
  match xs with
  | [] => inr []
  | x :: xs' => y <~ f x ;; ys <~ for_each f xs' ;; inr (y :: ys)
  end.

(** The body of the [try] block's request: it failed, or it produced a
    status code and a body; the body is only read when the code is 200, and
    is then a list of station objects or something [json()] or the first
    subscript chokes on. *)
Inductive body : Type :=
| Unusable
| Stations (raw_data : list Api.station).

Inductive outcome : Type :=
| RequestFailed
| Response (status_code : Z) (payload : body).

Section Collector.

(** [datetime.fromtimestamp]; [None] when it raises. *)
Variable fromtimestamp : Q -> option datetime.

(** One dict of [processed_data]; the values are evaluated in the order of
    the dict display. *)
Definition process_station (station : Api.station) : attempt Station.row :=
  station_id <~ item "number" (Api.number station) ;;
  name <~ item "name" (Api.name station) ;;
  position <~ item "position" (Api.position station) ;;
  latitude <~ item "lat" (Api.lat position) ;;
  position' <~ item "position" (Api.position station) ;;
  longitude <~ item "lng" (Api.lng position') ;;
  available_bikes <~ item "available_bikes" (Api.available_bikes station) ;;
  available_stands <~ item "available_bike_stands" (Api.available_bike_stands station) ;;
  total_capacity <~ item "bike_stands" (Api.bike_stands station) ;;
  status <~ item "status" (Api.status station) ;;
  millis <~ item "last_update" (Api.last_update station) ;;
  last_update <~ match fromtimestamp (inject_Z millis / 1000) with
                 | Some t => inr t
                 | None => inl (OtherError "fromtimestamp")
                 end ;;
  inr (derive
         {| Bike.station_id := station_id;
            Bike.name := name;
            Bike.latitude := latitude;
            Bike.longitude := longitude;
            Bike.available_bikes := available_bikes;
            Bike.available_stands := available_stands;
            Bike.total_capacity := total_capacity |}
         status last_update
         (get (Api.banking station) false)
         (get (Api.bonus station) false)).

(** [MobilityDataCollector._process_dublin_bikes_data]; on an empty list the
    frame has no column and [df['available_bikes']] raises. *)
Definition _process_dublin_bikes_data (raw_data : list Api.station)
    : attempt (list Station.row) :=
  df <~ for_each process_station raw_data ;;
  match df with
  | [] => inl (KeyError "available_bikes")
  | _ :: _ => inr df
  end.

(** The [try] block of [get_dublin_bikes_data]. *)
Definition fetch_dublin_bikes (response : outcome) (current_time : datetime)
    : attempt (list Station.row) :=
  match response with
  | RequestFailed => inl (OtherError "request")
  | Response status_code payload =>
      if (status_code =? 200)%Z
      then match payload with
           | Unusable => inl (OtherError "json")
           | Stations raw_data => _process_dublin_bikes_data raw_data
           end
      else inr (_get_sample_dublin_bikes_data current_time)
  end.

(** [MobilityDataCollector.get_dublin_bikes_data]: any exception of the [try]
    block is answered with the sample data. *)
Definition get_dublin_bikes_data (response : outcome) (current_time : datetime)
    : list Station.row :=
  match fetch_dublin_bikes response current_time with
  | inr df => df
  | inl _ => _get_sample_dublin_bikes_data current_time
  end.

End Collector.

(** A station object has every key that [_process_dublin_bikes_data]
    subscripts. *)
Definition present {A : Type} (value : option A) : bool :=
  match value with
  | Some _ => true
  | None => false
  end.

Definition complete (station : Api.station) : bool :=
  present (Api.number station)
  && present (Api.name station)
  && match Api.position station with
     | Some position => present (Api.lat position) && present (Api.lng position)
     | None => false
     end
  && present (Api.available_bikes station)
  && present (Api.available_bike_stands station)
  && present (Api.bike_stands station)
  && present (Api.status station)
  && present (Api.last_update station).

(** The response is a 200 with a non-empty list of complete station
    objects. *)
Definition usable (response : outcome) : bool :=
  match response with
  | Response status_code (Stations (station :: raw_data)) =>
      (status_code =? 200)%Z && forallb complete (station :: raw_data)
  | _ => false
  end.

(** A stand-in for [datetime.fromtimestamp] and a station object of the
    feed, used to run the model. *)
Definition noon_of (seconds : Q) : option datetime :=
  Some {| hour := 12; timestamp := seconds |}.


(** Two bike frames agree, row by row, on the position and on the
    availability score. *)
Definition same_scored_columns (bikes bikes' : list Bike.row) : Prop :=
  Forall2
    (fun s s' =>
       Bike.position s = Bike.position s'
       /\ Bike.availability_score s = Bike.availability_score s')
    bikes bikes'.

(** The Trinity College station under another id and name, full of bikes. *)
Definition relabelled_bike : Bike.row :=
  {| Bike.station_id := 99; Bike.name := "College Green";
     Bike.latitude := 53.3439; Bike.longitude := -6.2546;
     Bike.available_bikes := 20; Bike.available_stands := 0;
     Bike.total_capacity := 40 |}.

(** The frame handed to [HubScoreCalculator]: the columns the scorer reads. *)
Definition scorer_frame (df : list Station.row) : list Bike.row :=
  map Station.base df.

(** ** Comparisons and the builtins *)

Lemma Qltb_lt (x y : Q) : Qltb x y = true <-> x < y.
Proof.
  unfold Qltb. rewrite negb_true_iff.
  split; intro H.
  - apply Qnot_le_lt. intro Hle. apply Qle_bool_iff in Hle. congruence.
  - destruct (Qle_bool y x) eqn:E; [|reflexivity].
    apply Qle_bool_iff in E. exfalso. apply (Qlt_not_le _ _ H E).
Qed.

Lemma Qltb_ge (x y : Q) : Qltb x y = false <-> y <= x.
Proof.
  unfold Qltb. rewrite negb_false_iff. apply Qle_bool_iff.
Qed.

Lemma Qle_bool_gt (x y : Q) : Qle_bool x y = false <-> y < x.
Proof.
  rewrite <- Qltb_lt. unfold Qltb. now rewrite negb_true_iff.
Qed.

Ltac qcases :=
  repeat match goal with
  | H : Qltb _ _ = true |- _ => apply Qltb_lt in H
  | H : Qltb _ _ = false |- _ => apply Qltb_ge in H
  | H : Qle_bool _ _ = true |- _ => apply Qle_bool_iff in H
  | H : Qle_bool _ _ = false |- _ => apply Qle_bool_gt in H
  end.

Lemma py_max_Qmax (a b : Q) : py_max a b == Qmax a b.
Proof.
  unfold py_max. destruct (Qltb a b) eqn:E; qcases.
  - symmetry. apply Q.max_r. now apply Qlt_le_weak.
  - symmetry. now apply Q.max_l.
Qed.

Lemma py_min_Qmin (a b : Q) : py_min a b == Qmin a b.
Proof.
  unfold py_min. destruct (Qltb b a) eqn:E; qcases.
  - symmetry. apply Q.min_r. now apply Qlt_le_weak.
  - symmetry. now apply Q.min_l.
Qed.

#[global] Instance py_max_proper : Proper (Qeq ==> Qeq ==> Qeq) py_max.
Proof.
  intros a a' Ha b b' Hb. rewrite !py_max_Qmax. now rewrite Ha, Hb.
Qed.

#[global] Instance py_min_proper : Proper (Qeq ==> Qeq ==> Qeq) py_min.
Proof.
  intros a a' Ha b b' Hb. rewrite !py_min_Qmin. now rewrite Ha, Hb.
Qed.

Lemma Qle_bool_proper (x x' y y' : Q) :
  x == x' -> y == y' -> Qle_bool x y = Qle_bool x' y'.
Proof.
  intros Hx Hy.
  destruct (Qle_bool x y) eqn:E, (Qle_bool x' y') eqn:E'; qcases;
    try reflexivity; exfalso; rewrite Hx, Hy in E; lra.
Qed.

(** [round] depends only on the value of its argument, and its result is in
    lowest terms. *)
Lemma round_half_even_proper (x y : Q) :
  x == y -> round_half_even x = round_half_even y.
Proof.
  intro H. unfold round_half_even.
  rewrite (Qfloor_comp _ _ H).
  assert (Hc : Qcompare (x - inject_Z (Qfloor y)) (1 # 2)
               = Qcompare (y - inject_Z (Qfloor y)) (1 # 2)).
  { apply Qcompare_comp; [now rewrite H | reflexivity]. }
  now rewrite Hc.
Qed.

Lemma round_proper (x y : Q) (n : nat) : x == y -> round x n = round y n.
Proof.
  intro H. unfold round.
  set (c := inject_Z (Zpos (Z.to_pos (10 ^ Z.of_nat n)))).
  assert (E : x * c == y * c) by now rewrite H.
  now rewrite (round_half_even_proper _ _ E).
Qed.

Module PyFloatFacts.
Import PyFloat.

Lemma ltb_lt (a b : Q) : ltb (Fin a) (Fin b) = true <-> a < b.
Proof. apply Qltb_lt. Qed.

Lemma le_refl (a : t) : le a a.
Proof. destruct a; simpl; [apply Qle_refl | exact I]. Qed.

Lemma le_trans (a b c : t) : le a b -> le b c -> le a c.
Proof.
  destruct a, b, c; simpl; intros; try tauto. eapply Qle_trans; eauto.
Qed.

Lemma eq_refl (a : t) : eq a a.
Proof. destruct a; simpl; [reflexivity | exact I]. Qed.

Lemma eq_sym (a b : t) : eq a b -> eq b a.
Proof. destruct a, b; simpl; intros; try tauto. now symmetry. Qed.

Lemma le_antisym (a b : t) : le a b -> le b a -> eq a b.
Proof.
  destruct a, b; simpl; intros; try tauto. now apply Qle_antisym.
Qed.

Lemma leb_proper (a a' b : t) : eq a a' -> leb a b = leb a' b.
Proof.
  destruct a, a', b; simpl; intros H; try tauto.
  apply Qle_bool_proper; [exact H | reflexivity].
Qed.

Lemma leb_le (a b : t) : leb a b = true <-> le a b.
Proof.
  destruct a, b; simpl; try (split; intros; auto; fail).
  - apply Qle_bool_iff.
  - split; [discriminate | tauto].
Qed.

Lemma decay_proper (base : Q) (a a' : t) : eq a a' -> decay base a == decay base a'.
Proof.
  destruct a, a'; simpl; intros H; try tauto; [|reflexivity].
  now rewrite H.
Qed.



(** [min(1.0, x)] is the smaller of the two. *)
Lemma min_one_Fin (x : Q) : min_one (Fin x) == Qmin 1 x.
Proof. simpl. apply py_min_Qmin. Qed.



Lemma min_Fin_le (m : t) (d : Q) : le (min m (Fin d)) m /\ le (min m (Fin d)) (Fin d).
Proof.
  unfold min. destruct m as [x|]; simpl.
  - destruct (Qltb d x) eqn:E; qcases; simpl; split; lra.
  - split; [exact I | apply Qle_refl].
Qed.

Lemma min_Fin_cases (m : t) (d : Q) : min m (Fin d) = m \/ min m (Fin d) = Fin d.
Proof. unfold min. destruct (ltb (Fin d) m); auto. Qed.

Lemma running_min_cons (d : Q) (ds : list Q) (m : t) :
  running_min (d :: ds) m = running_min ds (min m (Fin d)).
Proof. reflexivity. Qed.

Lemma running_min_le (ds : list Q) (m : t) :
  le (running_min ds m) m
  /\ forall d, In d ds -> le (running_min ds m) (Fin d).
Proof.
  revert m. induction ds as [|d ds IH]; intros m.
  - split; [apply le_refl | simpl; tauto].
  - rewrite running_min_cons. destruct (IH (min m (Fin d))) as [H1 H2].
    destruct (min_Fin_le m d) as [Hm Hd].
    split; [eapply le_trans; eauto|].
    intros d' [<-|Hin]; [eapply le_trans; eauto | auto].
Qed.

Lemma running_min_attained (ds : list Q) (m : t) :
  running_min ds m = m \/ exists d, In d ds /\ running_min ds m = Fin d.
Proof.
  revert m. induction ds as [|d ds IH]; intros m; [now left|].
  rewrite running_min_cons.
  destruct (IH (min m (Fin d))) as [H|[d' [Hin H]]].
  - rewrite H. destruct (min_Fin_cases m d) as [E|E]; rewrite E.
    + now left.
    + right. exists d. split; [now left | reflexivity].
  - right. exists d'. split; [now right | exact H].
Qed.

(** From the sentinel, the running minimum of a non-empty list is one of
    its elements and a lower bound of all of them. *)
Lemma running_min_nonempty (ds : list Q) :
  ds <> [] ->
  exists d, running_min ds Inf = Fin d /\ Spec.nearest_distance ds d.
Proof.
  intros Hne.
  destruct (running_min_attained ds Inf) as [H|[d [Hin H]]].
  - destruct ds as [|d ds]; [congruence|].
    destruct (running_min_le (d :: ds) Inf) as [_ Hle].
    specialize (Hle d (or_introl Logic.eq_refl)). rewrite H in Hle. destruct Hle.
  - exists d. split; [exact H|]. split; [exact Hin|].
    intros d' Hd'. destruct (running_min_le ds Inf) as [_ Hle].
    specialize (Hle d' Hd'). now rewrite H in Hle.
Qed.

Lemma running_min_nil : running_min [] Inf = Inf.
Proof. reflexivity. Qed.


End PyFloatFacts.

(** ** The nearest-reference lookup *)

Section NearestFacts.

Variable geodesic : point -> point -> Q.
Variables lat lng : Q.

Local Abbreviation step := (nearest_step geodesic lat lng).
Local Abbreviation distances := (Spec.transport_distances geodesic (lat, lng)).

(** The distance kept by the loop is the running minimum of the distances. *)
Lemma nearest_fold_fst (df : list Transport.row) (st : PyFloat.t * option Transport.row) :
  fst (fold_left step df st) = PyFloat.running_min (distances df) (fst st).
Proof.
  revert st. induction df as [|r df IH]; intros [m n]; [reflexivity|].
  simpl fold_left. rewrite IH.
  unfold Spec.transport_distances. simpl map.
  rewrite PyFloatFacts.running_min_cons.
  f_equal. unfold nearest_step, PyFloat.min.
  destruct m as [y|]; simpl; [destruct (Qltb _ y)|]; reflexivity.
Qed.

(** Once a row has been kept, a row stays kept. *)
Lemma nearest_fold_some (df : list Transport.row) (m : PyFloat.t) (r : Transport.row) :
  exists r', snd (fold_left step df (m, Some r)) = Some r'.
Proof.
  revert m r. induction df as [|x df IH]; intros m r; [now exists r|].
  change (fold_left step (x :: df) (m, Some r))
    with (fold_left step df (step (m, Some r) x)).
  assert (exists m' r', step (m, Some r) x = (m', Some r')) as [m' [r' E]].
  { unfold nearest_step.
    destruct (PyFloat.ltb
                (PyFloat.Fin (geodesic (lat, lng) (Transport.position x))) m);
      eauto. }
  rewrite E. apply IH.
Qed.

Lemma nearest_scan_nonempty (df : list Transport.row) :
  df <> [] ->
  exists r, nearest_scan geodesic lat lng df
            = (PyFloat.running_min (distances df) PyFloat.Inf, Some r).
Proof.
  intros Hne. unfold nearest_scan.
  pose proof (nearest_fold_fst df (PyFloat.Inf, None)) as Hf. simpl fst in Hf.
  destruct df as [|x df]; [congruence|].
  destruct (nearest_fold_some df
              (PyFloat.Fin (geodesic (lat, lng) (Transport.position x))) x)
    as [r Hr].
  exists r. rewrite <- Hf. simpl fold_left in *.
  destruct (fold_left step df _) as [m n]. simpl in *. now subst.
Qed.

(** On a non-empty frame the lookup returns, and what it returns is
    determined by the running minimum and the row that was kept. *)
Lemma lookup_nonempty (df : list Transport.row) :
  df <> [] ->
  exists r,
    calculate_distance_to_transport geodesic lat lng df
    = ret {| distance_meters := PyFloat.running_min (distances df) PyFloat.Inf;
             nearest_station := station_label r;
             within_500m :=
               PyFloat.leb (PyFloat.running_min (distances df) PyFloat.Inf)
                           (PyFloat.Fin 500);
             within_200m :=
               PyFloat.leb (PyFloat.running_min (distances df) PyFloat.Inf)
                           (PyFloat.Fin 200) |}.
Proof.
  intros Hne. destruct (nearest_scan_nonempty df Hne) as [r Hr].
  exists r. unfold calculate_distance_to_transport. now rewrite Hr.
Qed.

(** The lookup fails exactly on the empty frame. *)
Lemma lookup_fails_iff_empty (df : list Transport.row) :
  (exists e, calculate_distance_to_transport geodesic lat lng df = raise e)
  <-> df = [].
Proof.
  split.
  - intros [e He]. destruct df as [|x df]; [reflexivity|].
    destruct (lookup_nonempty (x :: df)) as [r Hr]; [discriminate|].
    rewrite Hr in He. discriminate.
  - intros ->. eexists. reflexivity.
Qed.

(** A returned distance is never the sentinel. *)
Lemma lookup_distance_finite (df : list Transport.row) (prox : Proximity) :
  calculate_distance_to_transport geodesic lat lng df = ret prox ->
  exists d, distance_meters prox = PyFloat.Fin d
            /\ Spec.nearest_distance (distances df) d.
Proof.
  intros H.
  assert (Hne : df <> []) by (intros ->; discriminate H).
  destruct (lookup_nonempty df Hne) as [r Hr].
  rewrite Hr in H. injection H as <-. cbn [distance_meters].
  apply PyFloatFacts.running_min_nonempty.
  intros E. apply map_eq_nil in E. contradiction.
Qed.

End NearestFacts.

(** C4.  For every query point, the nearest-reference lookup on an empty
    reference set fails: it raises (the [TypeError] of inspecting the row that
    was never found) instead of returning a record with the sentinel infinite
    distance; whenever the lookup does return, the reference set was not
    empty and the distance is finite. *)
Theorem lookup_on_empty_reference_set_raises :
  forall (geodesic : point -> point -> Q) (lat lng : Q),
    calculate_distance_to_transport geodesic lat lng []
    = raise (TypeError "argument of type 'NoneType' is not iterable")
    /\ forall transport_df,
         when_returns (calculate_distance_to_transport geodesic lat lng transport_df)
           (fun prox =>
              (exists row rest, transport_df = row :: rest)
              /\ exists d, distance_meters prox = PyFloat.Fin d).
Proof.
  intros geodesic lat lng. split; [reflexivity|].
  intros df.
  destruct (calculate_distance_to_transport geodesic lat lng df) as [e|prox] eqn:H;
    [exact I|].
  cbn [when_returns]. split.
  - destruct df as [|row rest]; [discriminate H|]. now exists row, rest.
  - destruct (lookup_distance_finite geodesic lat lng df prox H) as [d [Hd _]].
    now exists d.
Qed.

(** ** The hub score *)

Section ScoreFacts.

Variable geodesic : point -> point -> Q.
Variable self : HubScoreCalculator.
Variables lat lng : Q.

Local Abbreviation lookup := (calculate_distance_to_transport geodesic lat lng).

(** What a returned proximity record says about the distances of the frame. *)
Lemma lookup_returns (df : list Transport.row) :
  df <> [] ->
  exists prox d,
    lookup df = ret prox
    /\ distance_meters prox = PyFloat.Fin d
    /\ Spec.nearest_distance (Spec.transport_distances geodesic (lat, lng) df) d
    /\ within_500m prox = Qle_bool d 500
    /\ within_200m prox = Qle_bool d 200.
Proof.
  intros Hne. destruct (lookup_nonempty geodesic lat lng df Hne) as [r Hr].
  destruct (lookup_distance_finite geodesic lat lng df _ Hr) as [d [Hd Hmin]].
  cbn [distance_meters] in Hd.
  eexists. exists d. split; [exact Hr|].
  cbn [distance_meters within_500m within_200m]. rewrite Hd.
  repeat split; try apply Hmin; reflexivity.
Qed.

Lemma bus_points_spec (prox : Proximity) (d : Q) :
  distance_meters prox = PyFloat.Fin d ->
  within_500m prox = Qle_bool d 500 ->
  within_200m prox = Qle_bool d 200 ->
  bus_points prox == Spec.bus_contribution d.
Proof.
  intros Hd H5 H2. unfold bus_points, Spec.bus_contribution.
  rewrite H5, H2, Hd.
  destruct (Qle_bool d 200); [reflexivity|].
  destruct (Qle_bool d 500); [reflexivity|].
  apply py_max_Qmax.
Qed.

Lemma luas_points_spec (prox : Proximity) (d : Q) :
  distance_meters prox = PyFloat.Fin d ->
  within_500m prox = Qle_bool d 500 ->
  luas_points prox == Spec.rail_contribution d.
Proof.
  intros Hd H5. unfold luas_points, Spec.rail_contribution.
  rewrite H5, Hd.
  destruct (Qle_bool d 500); [reflexivity|].
  apply py_max_Qmax.
Qed.

(** The accessibility helper always returns. *)
Lemma accessibility_returns :
  exists a, _calculate_accessibility_score geodesic lat lng = ret a.
Proof. eexists. reflexivity. Qed.

(** Reading the locals off a run of [hub_score_terms] that returned. *)
Lemma hub_score_terms_inv (r : Raw.t) :
  hub_score_terms geodesic self lat lng = ret r ->
  lookup (bus_df self) = ret (Raw.bus_proximity r)
  /\ lookup (luas_df self) = ret (Raw.luas_proximity r)
  /\ Raw.transport_score r
     = 0 + bus_points (Raw.bus_proximity r) + luas_points (Raw.luas_proximity r)
  /\ Raw.bike_demand r = _calculate_bike_demand geodesic self lat lng
  /\ Raw.demand_score r = py_min (Raw.bike_demand r / 20 * 25) 25
  /\ Raw.gap_score r = _calculate_infrastructure_gap geodesic self lat lng * 20
  /\ (exists a, _calculate_accessibility_score geodesic lat lng = ret a
                /\ Raw.accessibility_score r = a * 15)
  /\ Raw.population_score r = 5
  /\ Raw.total_score r
     = Raw.transport_score r + Raw.demand_score r + Raw.gap_score r
       + Raw.accessibility_score r + Raw.population_score r.
Proof.
  unfold hub_score_terms.
  destruct (lookup (bus_df self)) as [e|bus]; [discriminate|].
  destruct (lookup (luas_df self)) as [e|luas]; [discriminate|].
  destruct accessibility_returns as [a Ha]. rewrite Ha.
  cbn [bind]. intros H. injection H as <-. cbn.
  repeat split; try reflexivity. exists a. now split.
Qed.

(** With bus and Luas rows present the scorer returns. *)
Lemma hub_score_terms_returns :
  bus_df self <> [] -> luas_df self <> [] ->
  exists r, hub_score_terms geodesic self lat lng = ret r.
Proof.
  intros Hb Hl. unfold hub_score_terms.
  destruct (lookup_returns _ Hb) as [pb [db [Eb _]]].
  destruct (lookup_returns _ Hl) as [pl [dl [El _]]].
  destruct accessibility_returns as [a Ha].
  rewrite Eb, El, Ha. cbn [bind]. eexists. reflexivity.
Qed.

Lemma calculate_hub_score_of_terms (r : Raw.t) :
  hub_score_terms geodesic self lat lng = ret r ->
  calculate_hub_score geodesic self lat lng = ret (score_dict r).
Proof. intros H. unfold calculate_hub_score. now rewrite H. Qed.

End ScoreFacts.

(** C1.  For every query point and non-empty bus and rail reference sets, the
    transport connectivity component of the hub score is the bus contribution
    plus the rail contribution, each taken at the least geodesic distance from
    the point to its reference set. *)
Theorem transport_score_is_bus_plus_rail :
  forall (geodesic : point -> point -> Q) (self : HubScoreCalculator) (lat lng : Q),
    bus_df self <> [] ->
    luas_df self <> [] ->
    exists r bus_distance_m rail_distance_m,
      hub_score_terms geodesic self lat lng = ret r
      /\ calculate_hub_score geodesic self lat lng = ret (score_dict r)
      /\ Spec.nearest_distance
           (Spec.transport_distances geodesic (lat, lng) (bus_df self))
           bus_distance_m
      /\ Spec.nearest_distance
           (Spec.transport_distances geodesic (lat, lng) (luas_df self))
           rail_distance_m
      /\ Raw.transport_score r
         == Spec.bus_contribution bus_distance_m
            + Spec.rail_contribution rail_distance_m.
Proof.
  intros geodesic self lat lng Hb Hl.
  destruct (hub_score_terms_returns geodesic self lat lng Hb Hl) as [r Hr].
  destruct (hub_score_terms_inv geodesic self lat lng r Hr)
    as (Eb & El & Et & _).
  destruct (lookup_returns geodesic lat lng _ Hb) as (pb & db & Eb' & Hdb & Hmb & H5b & H2b).
  destruct (lookup_returns geodesic lat lng _ Hl) as (pl & dl & El' & Hdl & Hml & H5l & _).
  rewrite Eb in Eb'. injection Eb' as <-.
  rewrite El in El'. injection El' as <-.
  exists r, db, dl.
  split; [exact Hr|].
  split; [now apply calculate_hub_score_of_terms|].
  split; [exact Hmb|]. split; [exact Hml|].
  rewrite Et.
  rewrite (bus_points_spec _ _ Hdb H5b H2b), (luas_points_spec _ _ Hdl H5l).
  ring.
Qed.

Lemma transport_score_is_bus_plus_rail_witness :
  exists r bus_distance_m rail_distance_m,
    hub_score_terms taxicab sample_calculator 53.3440 (-6.2545) = ret r
    /\ calculate_hub_score taxicab sample_calculator 53.3440 (-6.2545)
       = ret (score_dict r)
    /\ Spec.nearest_distance
         (Spec.transport_distances taxicab (53.3440, -6.2545) (bus_df sample_calculator))
         bus_distance_m
    /\ Spec.nearest_distance
         (Spec.transport_distances taxicab (53.3440, -6.2545) (luas_df sample_calculator))
         rail_distance_m
    /\ Raw.transport_score r
       == Spec.bus_contribution bus_distance_m
          + Spec.rail_contribution rail_distance_m.
Proof.
  apply (transport_score_is_bus_plus_rail taxicab sample_calculator); discriminate.
Defined.

(** ** Bike demand *)

Section DemandFacts.

Variable geodesic : point -> point -> Q.
Variables lat lng : Q.

Local Abbreviation near := (Spec.stations_within geodesic (lat, lng)).
Local Abbreviation weighted :=
  (fun sd : Bike.row * Q =>
     Bike.availability_score (fst sd) * Qmax 0 (1 - snd sd / 1000)).

(** The loop adds the weighted availability of the stations within 1000 m
    to [nearby_demand] and their number to [station_count]. *)
Lemma demand_fold (bikes : list Bike.row) (nearby_demand : Q) (station_count : Z) :
  fst (fold_left (demand_step geodesic lat lng) bikes (nearby_demand, station_count))
  == nearby_demand + Spec.Qsum (map weighted (near bikes))
  /\ snd (fold_left (demand_step geodesic lat lng) bikes (nearby_demand, station_count))
     = (station_count + Z.of_nat (List.length (near bikes)))%Z.
Proof.
  revert nearby_demand station_count.
  induction bikes as [|s bikes IH]; intros a c.
  - simpl. split; [ring | lia].
  - change (fold_left (demand_step geodesic lat lng) (s :: bikes) (a, c))
      with (fold_left (demand_step geodesic lat lng) bikes
              (demand_step geodesic lat lng (a, c) s)).
    unfold Spec.stations_within. cbn [map filter snd].
    fold (near bikes).
    unfold demand_step at 2 4.
    destruct (Qle_bool (geodesic (lat, lng) (Bike.position s)) 1000).
    + destruct (IH (a + Bike.availability_score s
                        * py_max 0 (1 - geodesic (lat, lng) (Bike.position s) / 1000))
                   (c + 1)%Z) as [H1 H2].
      rewrite H1, H2. cbn [map List.length fst snd Spec.Qsum fold_right].
      fold (Spec.Qsum (map weighted (near bikes))).
      rewrite py_max_Qmax. split; [ring | lia].
    + apply IH.
Qed.

(** [_calculate_bike_demand] computes the raw demand of the specification. *)
Lemma bike_demand_raw_spec (self : HubScoreCalculator) :
  _calculate_bike_demand geodesic self lat lng
  == Spec.raw_demand geodesic (lat, lng) (bikes_df self).
Proof.
  unfold _calculate_bike_demand, Spec.raw_demand.
  destruct (demand_fold (bikes_df self) 0 0%Z) as [H1 H2].
  destruct (fold_left _ _ _) as [a c]. cbn [fst snd] in H1, H2.
  subst c. rewrite H1.
  destruct (List.length (near (bikes_df self))) as [|n].
  - change (Z.max (0 + Z.of_nat 0) 1) with 1%Z. now rewrite Qplus_0_l.
  - rewrite Z.max_l by lia. rewrite Z.add_0_l. now rewrite Qplus_0_l.
Qed.

End DemandFacts.


(** ** Infrastructure gap *)

Section GapFacts.

Variable geodesic : point -> point -> Q.
Variable self : HubScoreCalculator.
Variables lat lng : Q.

(** The two scans of [_calculate_infrastructure_gap] are running minima
    started at the sentinel. *)
Lemma min_bike_distance_running :
  min_bike_distance geodesic self lat lng
  = PyFloat.running_min
      (Spec.bike_distances geodesic (lat, lng) (bikes_df self)) PyFloat.Inf.
Proof.
  unfold min_bike_distance, PyFloat.running_min, Spec.bike_distances.
  generalize PyFloat.Inf.
  induction (bikes_df self) as [|s l IH]; intros m; [reflexivity|].
  simpl. apply IH.
Qed.

Lemma min_bus_distance_running :
  min_bus_distance geodesic self lat lng
  = PyFloat.running_min
      (Spec.transport_distances geodesic (lat, lng) (bus_df self)) PyFloat.Inf.
Proof.
  unfold min_bus_distance, PyFloat.running_min, Spec.transport_distances.
  generalize PyFloat.Inf.
  induction (bus_df self) as [|s l IH]; intros m; [reflexivity|].
  simpl. apply IH.
Qed.

End GapFacts.


(** For a non-negative distance [min(1.0, d/scale)] is the clamp to [[0, 1]]. *)
Lemma min_one_is_clamp (d : PyFloat.t) (scale : Q) :
  0 < scale -> PyFloat.le (PyFloat.Fin 0) d ->
  PyFloat.min_one (PyFloat.div d scale) == Spec.gap_norm d scale.
Proof.
  intros Hs Hd. destruct d as [x|]; [|reflexivity].
  simpl in Hd. cbn [PyFloat.div Spec.gap_norm]. rewrite PyFloatFacts.min_one_Fin.
  symmetry. apply Q.max_r. apply Q.min_glb; [lra|].
  unfold Qdiv. apply Qmult_le_0_compat; [exact Hd|].
  apply Qlt_le_weak. now apply Qinv_lt_0_compat.
Qed.



(** C6.  For every query point with non-empty bus and rail reference sets,
    scoring with an empty bike dataset returns: the raw demand and the demand
    sub-score are 0, the nearest-bike distance is still the infinite sentinel
    and the bike-gap term is at its maximum 1. *)
Theorem empty_bike_dataset_scores :
  forall (geodesic : point -> point -> Q) (self : HubScoreCalculator) (lat lng : Q),
    bikes_df self = [] ->
    bus_df self <> [] ->
    luas_df self <> [] ->
    exists r,
      hub_score_terms geodesic self lat lng = ret r
      /\ calculate_hub_score geodesic self lat lng = ret (score_dict r)
      /\ Raw.bike_demand r == 0
      /\ Raw.demand_score r == 0
      /\ demand_score (score_dict r) = 0
      /\ min_bike_distance geodesic self lat lng = PyFloat.Inf
      /\ PyFloat.min_one (PyFloat.div (min_bike_distance geodesic self lat lng) 1000) = 1
      /\ Raw.gap_score r
         == (1 + PyFloat.min_one
                   (PyFloat.div (min_bus_distance geodesic self lat lng) 500))
            / 2 * 20.
Proof.
  intros geodesic self lat lng Hbikes Hb Hl.
  destruct (hub_score_terms_returns geodesic self lat lng Hb Hl) as [r Hr].
  destruct (hub_score_terms_inv geodesic self lat lng r Hr)
    as (_ & _ & _ & Ed & Es & Eg & _).
  assert (Hmin : min_bike_distance geodesic self lat lng = PyFloat.Inf).
  { unfold min_bike_distance. now rewrite Hbikes. }
  assert (Hdem : Raw.bike_demand r == 0).
  { rewrite Ed. unfold _calculate_bike_demand. rewrite Hbikes. reflexivity. }
  assert (Hscore : Raw.demand_score r == 0).
  { rewrite Es, py_min_Qmin, Hdem. reflexivity. }
  exists r. split; [exact Hr|].
  split; [now apply calculate_hub_score_of_terms|].
  split; [exact Hdem|]. split; [exact Hscore|].
  split; [cbn [score_dict demand_score]; now rewrite (round_proper _ 0 2 Hscore)|].
  split; [exact Hmin|].
  split; [now rewrite Hmin|].
  rewrite Eg. unfold _calculate_infrastructure_gap, gap_of_distances.
  rewrite Hmin. reflexivity.
Qed.

Lemma empty_bike_dataset_scores_witness :
  exists r,
    hub_score_terms taxicab
      {| bikes_df := []; bus_df := bus_stops; luas_df := luas_stations |}
      53.3440 (-6.2545) = ret r
    /\ demand_score (score_dict r) = 0
    /\ Raw.gap_score r
       == (1 + PyFloat.min_one
                 (PyFloat.div
                    (min_bus_distance taxicab
                       {| bikes_df := []; bus_df := bus_stops; luas_df := luas_stations |}
                       53.3440 (-6.2545)) 500))
          / 2 * 20.
Proof.
  destruct (empty_bike_dataset_scores taxicab
              {| bikes_df := []; bus_df := bus_stops; luas_df := luas_stations |}
              53.3440 (-6.2545))
    as (r & Hr & _ & _ & _ & Hd & _ & _ & Hg).
  - reflexivity.
  - discriminate.
  - discriminate.
  - exists r. repeat split; assumption.
Defined.

(** ** Rounding of the returned dict *)

(** C10.  For every query point the returned [total_score] is the sum of the
    five unrounded components rounded to 2 decimals, and each sub-score is its
    own component rounded to 2 decimals; the reported total need not be the
    sum of the five reported sub-scores (61.89 against 61.88 at the sample
    point, with the stand-in distance). *)
Theorem total_rounds_the_unrounded_sum :
  (forall (geodesic : point -> point -> Q) (self : HubScoreCalculator) (lat lng : Q),
      match hub_score_terms geodesic self lat lng,
            calculate_hub_score geodesic self lat lng with
      | inr r, inr s =>
          total_score s
          = round (Raw.transport_score r + Raw.demand_score r + Raw.gap_score r
                   + Raw.accessibility_score r + Raw.population_score r) 2
          /\ transport_score s = round (Raw.transport_score r) 2
          /\ demand_score s = round (Raw.demand_score r) 2
          /\ gap_score s = round (Raw.gap_score r) 2
          /\ accessibility_score s = round (Raw.accessibility_score r) 2
          /\ population_score s = round (Raw.population_score r) 2
      | inl e, inl e' => e = e'
      | _, _ => False
      end)
  /\ exists s,
       calculate_hub_score taxicab sample_calculator 53.3440 (-6.2545) = ret s
       /\ total_score s = 61.89
       /\ reported_sum s == 61.88
       /\ ~ total_score s == reported_sum s.
Proof.
  split.
  - intros geodesic self lat lng.
    destruct (hub_score_terms geodesic self lat lng) as [e|r] eqn:Hr.
    + unfold calculate_hub_score. now rewrite Hr.
    + rewrite (calculate_hub_score_of_terms _ _ _ _ _ Hr).
      destruct (hub_score_terms_inv _ _ _ _ _ Hr) as (_ & _ & _ & _ & _ & _ & _ & _ & Et).
      unfold ret.
      cbn [score_dict total_score transport_score demand_score gap_score
           accessibility_score population_score].
      rewrite Et. repeat split; reflexivity.
  - eexists. split; [vm_compute; reflexivity|].
    split; [reflexivity|]. split; [reflexivity|].
    intros H. vm_compute in H. discriminate H.
Qed.

(** ** Independence of the order of the rows *)




Section DemandOrder.

Variable geodesic : point -> point -> Q.
Variable p : point.

Local Abbreviation weighted :=
  (fun sd : Bike.row * Q =>
     Bike.availability_score (fst sd) * Qmax 0 (1 - snd sd / 1000)).





End DemandOrder.

Lemma nil_or_not {A : Type} (l : list A) : l = [] \/ l <> [].
Proof. destruct l; [now left | right; discriminate]. Qed.


Section ScoreOrder.

Variable geodesic : point -> point -> Q.
Variables self self' : HubScoreCalculator.
Variables lat lng : Q.

Hypothesis bikes_perm : Permutation (bikes_df self) (bikes_df self').
Hypothesis bus_perm : Permutation (bus_df self) (bus_df self').
Hypothesis luas_perm : Permutation (luas_df self) (luas_df self').

Lemma lookup_inv (df : list Transport.row) (prox : Proximity) :
  calculate_distance_to_transport geodesic lat lng df = ret prox ->
  exists d,
    distance_meters prox = PyFloat.Fin d
    /\ Spec.nearest_distance (Spec.transport_distances geodesic (lat, lng) df) d
    /\ within_500m prox = Qle_bool d 500
    /\ within_200m prox = Qle_bool d 200.
Proof.
  intros H.
  assert (Hne : df <> []) by (intros ->; discriminate H).
  destruct (lookup_returns geodesic lat lng df Hne) as (prox' & d & E & Hd).
  rewrite H in E. injection E as <-. now exists d.
Qed.



End ScoreOrder.



(** ** The candidate lattice *)

Lemma length_rows {A B : Type} (f : A -> nat -> B) (rows : list A) (n : nat) :
  List.length (flat_map (fun i => map (f i) (seq 0 n)) rows)
  = (List.length rows * n)%nat.
Proof.
  induction rows as [|i rows IH]; [reflexivity|].
  cbn [flat_map]. rewrite length_app, length_map, length_seq, IH. reflexivity.
Qed.

Lemma lattice_length (bounds : Bounds) (lat_step lng_step : Q) (n : nat) :
  List.length (lattice bounds lat_step lng_step n) = (n * n)%nat.
Proof.
  unfold lattice. now rewrite length_rows, length_seq.
Qed.

(** Every lattice point is [(south + i * lat_step, west + j * lng_step)] for
    indices [i, j] below the resolution. *)
Lemma lattice_In (bounds : Bounds) (lat_step lng_step : Q) (n : nat) (p : point) :
  In p (lattice bounds lat_step lng_step n) ->
  exists i j, (i < n)%nat /\ (j < n)%nat
              /\ fst p = south bounds + inject_Z (Z.of_nat i) * lat_step
              /\ snd p = west bounds + inject_Z (Z.of_nat j) * lng_step.
Proof.
  unfold lattice. intros H. apply in_flat_map in H. destruct H as (i & Hi & H).
  apply in_map_iff in H. destruct H as (j & <- & Hj).
  apply in_seq in Hi. apply in_seq in Hj.
  exists i, j. repeat split; try lia.
Qed.

Lemma candidate_locations_returns (bounds : Bounds) (resolution : nat) :
  resolution <> O ->
  exists locations,
    candidate_locations bounds resolution = ret locations
    /\ List.length locations = (resolution * resolution)%nat
    /\ forall p, In p locations ->
         exists i j, (i < resolution)%nat /\ (j < resolution)%nat
           /\ fst p = south bounds + inject_Z (Z.of_nat i)
                      * ((north bounds - south bounds) / inject_Z (Z.of_nat resolution))
           /\ snd p = west bounds + inject_Z (Z.of_nat j)
                      * ((east bounds - west bounds) / inject_Z (Z.of_nat resolution)).
Proof.
  intros Hn. destruct resolution as [|k]; [congruence|].
  eexists. split; [reflexivity|]. split; [apply lattice_length|].
  intros p Hp. now apply lattice_In.
Qed.


(** The same scenario in binary64: 400 points, the first one equal to
    (53.32, -6.30) as floats, every latitude below 53.37 and every longitude
    below -6.22. *)
Lemma dublin_lattice_binary64 :
  List.length Binary64.candidate_locations = 400%nat
  /\ match Binary64.candidate_locations with
     | (lat, lng) :: _ =>
         PrimFloat.eqb lat Binary64.south = true
         /\ PrimFloat.eqb lng Binary64.west = true
     | [] => False
     end
  /\ forallb (fun p => PrimFloat.ltb (fst p) Binary64.north
                       && PrimFloat.ltb (snd p) Binary64.east)
       Binary64.candidate_locations = true.
Proof.
  split; [reflexivity|]. split; [split; reflexivity|].
  vm_compute. reflexivity.
Qed.

(** ** Sorting and truncation *)

Lemma head_nonneg {A : Type} (df : list A) (n : Z) :
  (0 <= n)%Z -> head df n = firstn (Z.to_nat n) df.
Proof.
  intros Hn. unfold head. now apply Z.leb_le in Hn as ->.
Qed.

Lemma Sorted_firstn {A : Type} (R : A -> A -> Prop) (l : list A) (k : nat) :
  Sorted R l -> Sorted R (firstn k l).
Proof.
  revert l. induction k as [|k IH]; intros l Hs; [constructor|].
  destruct l as [|x l]; [constructor|].
  apply Sorted_inv in Hs. destruct Hs as [Hs Hhd].
  cbn [firstn]. constructor; [now apply IH|].
  destruct l as [|y l]; [destruct k; constructor|].
  apply HdRel_inv in Hhd. destruct k; constructor. exact Hhd.
Qed.

Lemma insert_desc_perm (after_ties : bool) (x : Rec.t) (l : list Rec.t) :
  Permutation (x :: l) (insert_desc after_ties x l).
Proof.
  induction l as [|y l IH]; [reflexivity|].
  cbn [insert_desc]. destruct (if after_ties then _ else _); [|reflexivity].
  rewrite perm_swap. now constructor.
Qed.

Lemma insert_desc_hd (after_ties : bool) (x y : Rec.t) (l : list Rec.t) :
  score_ge y x -> HdRel score_ge y l -> HdRel score_ge y (insert_desc after_ties x l).
Proof.
  intros Hyx Hl. destruct l as [|z l]; [now constructor|].
  cbn [insert_desc]. apply HdRel_inv in Hl.
  destruct (if after_ties then _ else _); now constructor.
Qed.

Lemma insert_desc_sorted (after_ties : bool) (x : Rec.t) (l : list Rec.t) :
  Sorted score_ge l -> Sorted score_ge (insert_desc after_ties x l).
Proof.
  induction l as [|y l IH]; intros Hs; [repeat constructor|].
  apply Sorted_inv in Hs. destruct Hs as [Hs Hhd].
  cbn [insert_desc].
  destruct (if after_ties
            then Qle_bool (Rec.hub_score x) (Rec.hub_score y)
            else Qltb (Rec.hub_score x) (Rec.hub_score y)) eqn:E.
  - constructor; [now apply IH|].
    apply insert_desc_hd; [|exact Hhd].
    unfold score_ge. destruct after_ties; qcases; lra.
  - constructor; [now constructor|]. constructor.
    unfold score_ge. destruct after_ties; qcases; lra.
Qed.

Lemma insertion_sorts_descending (after_ties : bool) :
  sorts_descending (fold_right (insert_desc after_ties) []).
Proof.
  intros df. induction df as [|x df [IHp IHs]]; [split; constructor|].
  cbn [fold_right]. split.
  - rewrite <- insert_desc_perm. now constructor.
  - now apply insert_desc_sorted.
Qed.

Lemma stable_sort_sorts : sorts_descending stable_sort.
Proof. exact (insertion_sorts_descending false). Qed.

Lemma reversing_sort_sorts : sorts_descending reversing_sort.
Proof. exact (insertion_sorts_descending true). Qed.

(** The stable insertion sort keeps rows of equal score in input order, also
    after truncation. *)
Lemma filter_insert_stable (s : Q) (x : Rec.t) (l : list Rec.t) :
  filter (has_score s) (insert_desc false x l)
  = filter (has_score s) (x :: l).
Proof.
  induction l as [|y l IH]; [reflexivity|].
  cbn [insert_desc].
  destruct (Qltb (Rec.hub_score x) (Rec.hub_score y)) eqn:E; [|reflexivity].
  cbn [filter] in *. rewrite IH.
  destruct (has_score s x) eqn:Hx, (has_score s y) eqn:Hy; try reflexivity.
  exfalso. unfold has_score in Hx, Hy.
  apply Qeq_bool_iff in Hx. apply Qeq_bool_iff in Hy. qcases. lra.
Qed.

Lemma filter_stable_sort (s : Q) (df : list Rec.t) :
  filter (has_score s) (stable_sort df) = filter (has_score s) df.
Proof.
  induction df as [|x df IH]; [reflexivity|].
  unfold stable_sort in *. cbn [fold_right].
  rewrite filter_insert_stable. cbn [filter]. now rewrite IH.
Qed.

Lemma stable_sort_keeps_tie_order (df : list Rec.t) (k : nat) :
  keeps_tie_order df (firstn k (stable_sort df)).
Proof.
  intros s. exists (filter (has_score s) (skipn k (stable_sort df))).
  rewrite <- filter_app, firstn_skipn. symmetry. apply filter_stable_sort.
Qed.

(** ** The grid search *)

Lemma mapM_returns {A B : Type} (f : A -> result B) (xs : list A) :
  (forall x, In x xs -> exists y, f x = ret y) ->
  exists ys, mapM f xs = ret ys /\ List.length ys = List.length xs.
Proof.
  induction xs as [|x xs IH]; intros H.
  - exists []. now split.
  - destruct (H x (or_introl eq_refl)) as [y Hy].
    destruct IH as (ys & Hys & Hlen); [intros; apply H; now right|].
    exists (y :: ys). cbn [mapM]. rewrite Hy, Hys. cbn. now rewrite Hlen.
Qed.

Section GridFacts.

Variable geodesic : point -> point -> Q.
Variable sort_values : list Rec.t -> list Rec.t.
Variable calculator : HubScoreCalculator.

Hypothesis bus_present : bus_df calculator <> [].
Hypothesis luas_present : luas_df calculator <> [].

Lemma score_candidate_returns (loc : point) :
  exists rec, score_candidate geodesic calculator loc = ret rec.
Proof.
  destruct loc as [lat lng].
  destruct (hub_score_terms_returns geodesic calculator lat lng
              bus_present luas_present) as [r Hr].
  unfold score_candidate.
  rewrite (calculate_hub_score_of_terms _ _ _ _ _ Hr). eexists. reflexivity.
Qed.

Lemma score_lattice_returns (bounds : Bounds) (resolution : nat) :
  resolution <> O ->
  exists results,
    score_lattice geodesic calculator bounds resolution = ret results
    /\ List.length results = (resolution * resolution)%nat.
Proof.
  intros Hn.
  destruct (candidate_locations_returns bounds resolution Hn)
    as (locations & Hloc & Hlen & _).
  destruct (mapM_returns (score_candidate geodesic calculator) locations)
    as (results & Hres & Hlen'); [intros; apply score_candidate_returns|].
  exists results. unfold score_lattice. rewrite Hloc. cbn [bind ret].
  split; [exact Hres | congruence].
Qed.

(** [results] lists the lattice points in the order of the lattice. *)
Lemma score_lattice_order (bounds : Bounds) (resolution : nat)
    (locations : list point) (results : list Rec.t) :
  candidate_locations bounds resolution = ret locations ->
  score_lattice geodesic calculator bounds resolution = ret results ->
  map (fun r => (Rec.latitude r, Rec.longitude r)) results = locations.
Proof.
  intros Hloc. unfold score_lattice. rewrite Hloc. cbn [bind ret].
  clear Hloc. revert results.
  induction locations as [|[lat lng] locations IH]; intros results H.
  - injection H as <-. reflexivity.
  - cbn [mapM] in H.
    destruct (score_candidate geodesic calculator (lat, lng)) as [e|rec] eqn:Hrec;
      [discriminate|].
    destruct (mapM _ locations) as [e|rest]; [discriminate|].
    injection H as <-. cbn [map]. rewrite (IH rest eq_refl). f_equal.
    unfold score_candidate in Hrec.
    destruct (calculate_hub_score geodesic calculator lat lng); [discriminate|].
    injection Hrec as <-. reflexivity.
Qed.

(** The ranking returned by the search: the first [num_locations] rows of the
    sorted results. *)
Lemma grid_search_returns (bounds : Bounds) (resolution : nat) (num_locations : Z) :
  sorts_descending sort_values ->
  resolution <> O ->
  (0 <= num_locations)%Z ->
  exists results recs,
    score_lattice geodesic calculator bounds resolution = ret results
    /\ grid_search geodesic sort_values bounds resolution calculator num_locations
       = ret recs
    /\ recs = firstn (Z.to_nat num_locations) (sort_values results)
    /\ List.length recs = Nat.min (Z.to_nat num_locations) (resolution * resolution)
    /\ Sorted score_ge recs.
Proof.
  intros Hsort Hn Hk.
  destruct (score_lattice_returns bounds resolution Hn) as (results & Hres & Hlen).
  destruct (Hsort results) as [Hperm Hsorted].
  exists results, (firstn (Z.to_nat num_locations) (sort_values results)).
  split; [exact Hres|]. split.
  { unfold grid_search. rewrite Hres. cbn [bind ret]. now rewrite head_nonneg. }
  split; [reflexivity|]. split.
  - rewrite length_firstn, <- (Permutation_length Hperm), Hlen. reflexivity.
  - now apply Sorted_firstn.
Qed.

End GridFacts.

(** The [i]-th of [n] steps from [lo] towards [hi]. *)
Lemma step_fraction (i n : nat) :
  (i < n)%nat ->
  0 <= inject_Z (Z.of_nat i) / inject_Z (Z.of_nat n)
  /\ inject_Z (Z.of_nat i) / inject_Z (Z.of_nat n) < 1.
Proof.
  intros Hi.
  assert (Hn : 0 < inject_Z (Z.of_nat n)).
  { change 0 with (inject_Z 0). rewrite <- Zlt_Qlt. lia. }
  assert (Ha : 0 <= inject_Z (Z.of_nat i)).
  { change 0 with (inject_Z 0). rewrite <- Zle_Qle. lia. }
  assert (Hlt : inject_Z (Z.of_nat i) < inject_Z (Z.of_nat n)).
  { rewrite <- Zlt_Qlt. lia. }
  split.
  - apply Qle_shift_div_l; [exact Hn | lra].
  - apply Qlt_shift_div_r; [exact Hn | lra].
Qed.

Lemma step_as_fraction (lo hi : Q) (i n : nat) :
  (i < n)%nat ->
  lo + inject_Z (Z.of_nat i) * ((hi - lo) / inject_Z (Z.of_nat n))
  == lo + inject_Z (Z.of_nat i) / inject_Z (Z.of_nat n) * (hi - lo).
Proof.
  intros Hi. field. intros H.
  assert (Hn : 0 < inject_Z (Z.of_nat n)).
  { change 0 with (inject_Z 0). rewrite <- Zlt_Qlt. lia. }
  lra.
Qed.

(** With [lo < hi] the steps stay in [[lo, hi)]: the far edge is not sampled. *)
Lemma steps_half_open (lo hi : Q) (i n : nat) :
  (i < n)%nat -> lo < hi ->
  lo <= lo + inject_Z (Z.of_nat i) * ((hi - lo) / inject_Z (Z.of_nat n))
  /\ lo + inject_Z (Z.of_nat i) * ((hi - lo) / inject_Z (Z.of_nat n)) < hi.
Proof.
  intros Hi Hlt. rewrite (step_as_fraction lo hi i n Hi).
  destruct (step_fraction i n Hi) as [H0 H1].
  set (t := inject_Z (Z.of_nat i) / inject_Z (Z.of_nat n)) in *.
  split; nra.
Qed.

(** For a well-formed box the lattice is half-open: it starts on the south
    and west edges and stays below the north and east edges. *)
Lemma lattice_half_open (bounds : Bounds) (resolution : nat) (locations : list point) :
  south bounds < north bounds -> west bounds < east bounds ->
  candidate_locations bounds resolution = ret locations ->
  Forall (fun p => south bounds <= fst p /\ fst p < north bounds
                   /\ west bounds <= snd p /\ snd p < east bounds) locations.
Proof.
  intros Hlat Hlng Hloc. apply Forall_forall. intros p Hp.
  destruct resolution as [|k]; [discriminate|].
  destruct (candidate_locations_returns bounds (S k)) as (l & Hl & _ & Hin);
    [discriminate|].
  rewrite Hloc in Hl. injection Hl as <-.
  destruct (Hin p Hp) as (i & j & Hi & Hj & -> & ->).
  destruct (steps_half_open (south bounds) (north bounds) i (S k) Hi Hlat).
  destruct (steps_half_open (west bounds) (east bounds) j (S k) Hj Hlng).
  tauto.
Qed.

(** The contract of the sort leaves the order of equal scores open.  On four
    lattice points that all score 25 both sorts meet it: [stable_sort] returns
    the points in lattice order and [reversing_sort] in the reverse order. *)
Lemma sort_contract_leaves_ties_open :
  exists results,
    score_lattice taxicab remote_calculator unit_box 2 = ret results
    /\ map Rec.hub_score results = [25; 25; 25; 25]
    /\ sorts_descending stable_sort
    /\ sorts_descending reversing_sort
    /\ grid_search taxicab stable_sort unit_box 2 remote_calculator 4
       = ret results
    /\ grid_search taxicab reversing_sort unit_box 2 remote_calculator 4
       = ret (rev results).
Proof.
  eexists.
  split; [vm_compute; reflexivity|].
  split; [reflexivity|].
  split; [exact stable_sort_sorts|].
  split; [exact reversing_sort_sorts|].
  split; vm_compute; reflexivity.
Qed.

(** The function of the source, with its box, its resolution 20 and its bus
    and Luas tables: for any bike frame it returns the [min(num_locations,
    400)] best-scored lattice points in non-increasing order. *)
Lemma generate_hub_recommendations_top_k
    (geodesic : point -> point -> Q) (sort_values : list Rec.t -> list Rec.t)
    (bikes : list Bike.row) (num_locations : Z) :
  sorts_descending sort_values ->
  (0 <= num_locations)%Z ->
  exists recs,
    generate_hub_recommendations geodesic sort_values bikes num_locations = ret recs
    /\ List.length recs = Nat.min (Z.to_nat num_locations) 400
    /\ Sorted score_ge recs.
Proof.
  intros Hsort Hk. unfold generate_hub_recommendations.
  set (calculator := {| bikes_df := bikes; bus_df := bus_stops;
                        luas_df := luas_stations |}).
  assert (Hb : bus_df calculator <> []) by discriminate.
  assert (Hl : luas_df calculator <> []) by discriminate.
  assert (Hn : 20%nat <> O) by discriminate.
  destruct (grid_search_returns geodesic sort_values calculator Hb Hl
              dublin_bounds 20 num_locations Hsort Hn Hk)
    as (results & recs & _ & Hrun & _ & Hlen & Hsorted).
  exists recs. repeat split; assumption.
Qed.

(** * Further properties of the code *)

(** ** Which row the lookup reports *)

Section FirstNearest.

Variable geodesic : point -> point -> Q.
Variables lat lng : Q.

Local Abbreviation dist := (fun r => geodesic (lat, lng) (Transport.position r)).

(** The state of the scan after the rows [seen]: nothing kept yet, or the
    first row of [seen] whose distance no other row of [seen] beats. *)
Lemma nearest_fold_first (df seen : list Transport.row)
    (st : PyFloat.t * option Transport.row) :
  match st with
  | (m, None) => m = PyFloat.Inf /\ seen = []
  | (m, Some row) =>
      m = PyFloat.Fin (dist row)
      /\ exists before after,
           seen = before ++ row :: after
           /\ (forall r, In r before -> dist row < dist r)
           /\ (forall r, In r after -> dist row <= dist r)
  end ->
  match fold_left (nearest_step geodesic lat lng) df st with
  | (m, None) => m = PyFloat.Inf /\ seen ++ df = []
  | (m, Some row) =>
      m = PyFloat.Fin (dist row)
      /\ exists before after,
           seen ++ df = before ++ row :: after
           /\ (forall r, In r before -> dist row < dist r)
           /\ (forall r, In r after -> dist row <= dist r)
  end.
Proof.
  revert seen st. induction df as [|x df IH]; intros seen [m n] Hst.
  - rewrite app_nil_r. exact Hst.
  - change (fold_left (nearest_step geodesic lat lng) (x :: df) (m, n))
      with (fold_left (nearest_step geodesic lat lng) df
              (nearest_step geodesic lat lng (m, n) x)).
    replace (seen ++ x :: df) with ((seen ++ [x]) ++ df)
      by (rewrite <- app_assoc; reflexivity).
    apply IH. unfold nearest_step.
    destruct n as [row|].
    + destruct Hst as (-> & before & after & -> & Hb & Ha).
      destruct (PyFloat.ltb (PyFloat.Fin (dist x)) (PyFloat.Fin (dist row))) eqn:E.
      * apply PyFloatFacts.ltb_lt in E.
        split; [reflexivity|].
        exists (before ++ row :: after), []. split; [reflexivity|].
        split; [|intros r []].
        intros r Hr. apply in_app_or in Hr. destruct Hr as [Hr|[<-|Hr]].
        -- specialize (Hb r Hr). lra.
        -- exact E.
        -- specialize (Ha r Hr). lra.
      * split; [reflexivity|].
        exists before, (after ++ [x]). split; [now rewrite <- app_assoc|].
        split; [exact Hb|].
        intros r Hr. apply in_app_or in Hr. destruct Hr as [Hr|[<-|[]]].
        -- now apply Ha.
        -- simpl in E. qcases. exact E.
    + destruct Hst as [-> ->]. simpl.
      split; [reflexivity|]. exists [], []. split; [reflexivity|].
      split; intros r [].
Qed.

End FirstNearest.

(** X1.  When the lookup returns, the station it names is the first row of
    the frame at the least distance: every earlier row is strictly farther
    and no later row is nearer. *)
Theorem lookup_names_first_nearest_row :
  forall (geodesic : point -> point -> Q) (lat lng : Q)
         (transport_df : list Transport.row) (prox : Proximity),
    calculate_distance_to_transport geodesic lat lng transport_df = ret prox ->
    exists before row after,
      transport_df = before ++ row :: after
      /\ nearest_station prox = station_label row
      /\ distance_meters prox
         = PyFloat.Fin (geodesic (lat, lng) (Transport.position row))
      /\ (forall r, In r before ->
            geodesic (lat, lng) (Transport.position row)
            < geodesic (lat, lng) (Transport.position r))
      /\ (forall r, In r after ->
            geodesic (lat, lng) (Transport.position row)
            <= geodesic (lat, lng) (Transport.position r)).
Proof.
  intros geodesic lat lng df prox H.
  unfold calculate_distance_to_transport, nearest_scan in H.
  pose proof (nearest_fold_first geodesic lat lng df [] (PyFloat.Inf, None)
                (conj eq_refl eq_refl)) as Hscan.
  destruct (fold_left (nearest_step geodesic lat lng) df (PyFloat.Inf, None))
    as [m [row|]]; [|discriminate H].
  destruct Hscan as (-> & before & after & Hdf & Hb & Ha).
  injection H as <-. exists before, row, after.
  cbn [nearest_station distance_meters]. simpl in Hdf.
  repeat split; assumption.
Qed.

Lemma lookup_names_first_nearest_row_witness :
  exists prox before row after,
    calculate_distance_to_transport taxicab 53.3440 (-6.2545) luas_stations = ret prox
    /\ luas_stations = before ++ row :: after
    /\ nearest_station prox = station_label row
    /\ (forall r, In r before ->
          taxicab (53.3440, -6.2545) (Transport.position row)
          < taxicab (53.3440, -6.2545) (Transport.position r)).
Proof.
  destruct (calculate_distance_to_transport taxicab 53.3440 (-6.2545) luas_stations)
    as [e|prox] eqn:E; [vm_compute in E; discriminate E|].
  destruct (lookup_names_first_nearest_row taxicab 53.3440 (-6.2545)
              luas_stations prox E)
    as (before & row & after & Hdf & Hname & _ & Hb & _).
  exists prox, before, row, after. repeat split; assumption.
Defined.

(** ** The transport points as a function of the distance *)

Lemma bus_contribution_cases (d : Q) :
  (d <= 200 /\ Spec.bus_contribution d = 15)
  \/ (200 < d /\ d <= 500 /\ Spec.bus_contribution d = 10)
  \/ (500 < d /\ Spec.bus_contribution d = Qmax 0 (10 - (d - 500) / 100)).
Proof.
  unfold Spec.bus_contribution.
  destruct (Qle_bool d 200) eqn:E2; qcases; [now left|].
  destruct (Qle_bool d 500) eqn:E5; qcases.
  - right; left. repeat split; assumption.
  - right; right. now split.
Qed.

Lemma rail_contribution_cases (d : Q) :
  (d <= 500 /\ Spec.rail_contribution d = 20)
  \/ (500 < d /\ Spec.rail_contribution d = Qmax 0 (15 - (d - 500) / 100)).
Proof.
  unfold Spec.rail_contribution.
  destruct (Qle_bool d 500) eqn:E5; qcases; [now left | now right].
Qed.

(** [max(0, base - (d - 500)/100)] in linear form. *)
Lemma decay_value (base d : Q) :
  (base - (d - 500) / 100 <= 0 /\ Qmax 0 (base - (d - 500) / 100) == 0)
  \/ (0 < base - (d - 500) / 100
      /\ Qmax 0 (base - (d - 500) / 100) * 100 == 100 * base - d + 500).
Proof.
  destruct (Q.max_spec 0 (base - (d - 500) / 100)) as [[H1 H2]|[H1 H2]].
  - right. split; [exact H1|]. rewrite H2. field.
  - left. split; [exact H1 | exact H2].
Qed.

Lemma decay_linear (base d : Q) :
  (base - (d - 500) / 100) * 100 == 100 * base - d + 500.
Proof. field. Qed.

Ltac decay_cases base d :=
  let H := fresh "Hdecay" in
  let L := fresh "Hlin" in
  pose proof (decay_linear base d) as L;
  destruct (decay_value base d) as [[? H]|[? H]].

Lemma bus_contribution_range (d : Q) :
  0 <= Spec.bus_contribution d <= 15
  /\ (Spec.bus_contribution d == 15 <-> d <= 200)
  /\ (Spec.bus_contribution d == 0 <-> 1500 <= d).
Proof.
  destruct (bus_contribution_cases d) as [[H ->]|[(H1 & H2 & ->)|[H ->]]].
  - repeat split; intros; try lra.
  - repeat split; intros; try lra.
  - decay_cases 10 d.
    + rewrite Hdecay. repeat split; intros; try lra.
    + set (v := Qmax 0 (10 - (d - 500) / 100)) in *.
      repeat split; intros; try lra.
Qed.

Lemma rail_contribution_range (d : Q) :
  0 <= Spec.rail_contribution d <= 20
  /\ (Spec.rail_contribution d == 20 <-> d <= 500)
  /\ (Spec.rail_contribution d == 0 <-> 2000 <= d).
Proof.
  destruct (rail_contribution_cases d) as [[H ->]|[H ->]].
  - repeat split; intros; try lra.
  - decay_cases 15 d.
    + rewrite Hdecay. repeat split; intros; try lra.
    + set (v := Qmax 0 (15 - (d - 500) / 100)) in *.
      repeat split; intros; try lra.
Qed.

Lemma bus_contribution_antitone (d d' : Q) :
  d <= d' -> Spec.bus_contribution d' <= Spec.bus_contribution d.
Proof.
  intros Hle.
  destruct (bus_contribution_cases d) as [[H ->]|[(H1 & H2 & ->)|[H ->]]];
  destruct (bus_contribution_cases d') as [[H' ->]|[(H1' & H2' & ->)|[H' ->]]];
    try lra.
  - decay_cases 10 d'; set (v := Qmax 0 (10 - (d' - 500) / 100)) in *; lra.
  - decay_cases 10 d'; set (v := Qmax 0 (10 - (d' - 500) / 100)) in *; lra.
  - decay_cases 10 d; decay_cases 10 d';
      set (v := Qmax 0 (10 - (d - 500) / 100)) in *;
      set (v' := Qmax 0 (10 - (d' - 500) / 100)) in *; lra.
Qed.

Lemma rail_contribution_antitone (d d' : Q) :
  d <= d' -> Spec.rail_contribution d' <= Spec.rail_contribution d.
Proof.
  intros Hle.
  destruct (rail_contribution_cases d) as [[H ->]|[H ->]];
  destruct (rail_contribution_cases d') as [[H' ->]|[H' ->]];
    try lra.
  - decay_cases 15 d'; set (v := Qmax 0 (15 - (d' - 500) / 100)) in *; lra.
  - decay_cases 15 d; decay_cases 15 d';
      set (v := Qmax 0 (15 - (d - 500) / 100)) in *;
      set (v' := Qmax 0 (15 - (d' - 500) / 100)) in *; lra.
Qed.

(** X2.  Whenever the scorer returns, the flags of a lookup are nested
    (within 200 m implies within 500 m), the transport score lies between 0
    and 35, and it is 35 exactly when the nearest bus stop is within 200 m and
    the nearest Luas station within 500 m. *)
Theorem transport_score_between_0_and_35 :
  forall (geodesic : point -> point -> Q) (self : HubScoreCalculator)
         (lat lng : Q) (r : Raw.t),
    hub_score_terms geodesic self lat lng = ret r ->
    (within_200m (Raw.bus_proximity r) = true ->
     within_500m (Raw.bus_proximity r) = true)
    /\ 0 <= Raw.transport_score r <= 35
    /\ (Raw.transport_score r == 35 <->
        within_200m (Raw.bus_proximity r) = true
        /\ within_500m (Raw.luas_proximity r) = true).
Proof.
  intros geodesic self lat lng r Hr.
  destruct (hub_score_terms_inv _ _ _ _ _ Hr) as (Eb & El & Et & _).
  destruct (lookup_inv _ _ _ _ _ Eb) as (db & Hdb & _ & H5b & H2b).
  destruct (lookup_inv _ _ _ _ _ El) as (dl & Hdl & _ & H5l & _).
  assert (Hsum : Raw.transport_score r
                 == Spec.bus_contribution db + Spec.rail_contribution dl).
  { rewrite Et, (bus_points_spec _ _ Hdb H5b H2b), (luas_points_spec _ _ Hdl H5l).
    ring. }
  destruct (bus_contribution_range db) as (Hb1 & Hb2 & _).
  destruct (rail_contribution_range dl) as (Hl1 & Hl2 & _).
  rewrite H5b, H2b, H5l. rewrite !Qle_bool_iff.
  split; [intros; lra|]. split; [lra|].
  rewrite Hsum. split.
  - intros H. split; [apply Hb2 | apply Hl2]; lra.
  - intros [H1 H2]. apply Hb2 in H1. apply Hl2 in H2. lra.
Qed.

Lemma transport_score_between_0_and_35_witness :
  exists r,
    hub_score_terms taxicab sample_calculator 53.3440 (-6.2545) = ret r
    /\ 0 <= Raw.transport_score r <= 35
    /\ (Raw.transport_score r == 35 <->
        within_200m (Raw.bus_proximity r) = true
        /\ within_500m (Raw.luas_proximity r) = true).
Proof.
  destruct (hub_score_terms taxicab sample_calculator 53.3440 (-6.2545))
    as [e|r] eqn:E; [vm_compute in E; discriminate E|].
  exists r. split; [reflexivity|].
  apply (transport_score_between_0_and_35 taxicab sample_calculator _ _ r E).
Defined.

(** X3.  Of two lookups (at any points, over any frames), the one whose
    nearest row is closer gets at least as many bus points and at least as
    many Luas points. *)
Theorem closer_stop_never_scores_less :
  forall (geodesic : point -> point -> Q)
         (lat lng : Q) (df : list Transport.row) (prox : Proximity)
         (lat' lng' : Q) (df' : list Transport.row) (prox' : Proximity),
    calculate_distance_to_transport geodesic lat lng df = ret prox ->
    calculate_distance_to_transport geodesic lat' lng' df' = ret prox' ->
    PyFloat.le (distance_meters prox) (distance_meters prox') ->
    bus_points prox' <= bus_points prox
    /\ luas_points prox' <= luas_points prox.
Proof.
  intros geodesic lat lng df prox lat' lng' df' prox' H H' Hle.
  destruct (lookup_inv _ _ _ _ _ H) as (d & Hd & _ & H5 & H2).
  destruct (lookup_inv _ _ _ _ _ H') as (d' & Hd' & _ & H5' & H2').
  rewrite Hd, Hd' in Hle. simpl in Hle.
  rewrite (bus_points_spec _ _ Hd H5 H2), (bus_points_spec _ _ Hd' H5' H2').
  rewrite (luas_points_spec _ _ Hd H5), (luas_points_spec _ _ Hd' H5').
  split; [now apply bus_contribution_antitone | now apply rail_contribution_antitone].
Qed.

Lemma closer_stop_never_scores_less_witness :
  exists prox prox',
    calculate_distance_to_transport taxicab 53.3440 (-6.2545) bus_stops = ret prox
    /\ calculate_distance_to_transport taxicab 53.3550 (-6.3000) bus_stops = ret prox'
    /\ bus_points prox' <= bus_points prox
    /\ luas_points prox' <= luas_points prox.
Proof.
  destruct (calculate_distance_to_transport taxicab 53.3440 (-6.2545) bus_stops)
    as [e|prox] eqn:E; [vm_compute in E; discriminate E|].
  destruct (calculate_distance_to_transport taxicab 53.3550 (-6.3000) bus_stops)
    as [e|prox'] eqn:E'; [vm_compute in E'; discriminate E'|].
  exists prox, prox'. split; [reflexivity|]. split; [reflexivity|].
  apply (closer_stop_never_scores_less taxicab _ _ _ _ _ _ _ _ E E').
  vm_compute in E, E'. injection E as <-. injection E' as <-.
  vm_compute. discriminate.
Defined.

(** X4.  The bus points of a lookup are 0 exactly when the nearest row is
    1500 m away or more, and its Luas points are 0 exactly from 2000 m. *)
Theorem transport_points_vanish_with_distance :
  forall (geodesic : point -> point -> Q) (lat lng : Q)
         (df : list Transport.row) (prox : Proximity),
    calculate_distance_to_transport geodesic lat lng df = ret prox ->
    exists d,
      distance_meters prox = PyFloat.Fin d
      /\ (bus_points prox == 0 <-> 1500 <= d)
      /\ (luas_points prox == 0 <-> 2000 <= d).
Proof.
  intros geodesic lat lng df prox H.
  destruct (lookup_inv _ _ _ _ _ H) as (d & Hd & _ & H5 & H2).
  exists d. split; [exact Hd|].
  rewrite (bus_points_spec _ _ Hd H5 H2), (luas_points_spec _ _ Hd H5).
  split; [apply bus_contribution_range | apply rail_contribution_range].
Qed.

Lemma transport_points_vanish_with_distance_witness :
  exists prox d,
    calculate_distance_to_transport taxicab 53.3550 (-6.3000) luas_stations = ret prox
    /\ distance_meters prox = PyFloat.Fin d
    /\ (bus_points prox == 0 <-> 1500 <= d)
    /\ (luas_points prox == 0 <-> 2000 <= d).
Proof.
  destruct (calculate_distance_to_transport taxicab 53.3550 (-6.3000) luas_stations)
    as [e|prox] eqn:E; [vm_compute in E; discriminate E|].
  destruct (transport_points_vanish_with_distance taxicab _ _ _ _ E)
    as (d & Hd & Hb & Hl).
  exists prox, d. repeat split; try assumption; try apply Hb; try apply Hl.
Defined.

(** X5.  The infrastructure-gap scan and the lookup agree on the nearest bus
    distance, so the bus-gap term is [d/500] when the transport score saw the
    stop within 500 m and is saturated at 1 otherwise. *)
Theorem gap_uses_the_lookup_distance :
  forall (geodesic : point -> point -> Q) (self : HubScoreCalculator)
         (lat lng : Q) (r : Raw.t),
    hub_score_terms geodesic self lat lng = ret r ->
    distance_meters (Raw.bus_proximity r) = min_bus_distance geodesic self lat lng
    /\ exists d,
         distance_meters (Raw.bus_proximity r) = PyFloat.Fin d
         /\ Raw.gap_score r
            == (PyFloat.min_one
                  (PyFloat.div (min_bike_distance geodesic self lat lng) 1000)
                + (if within_500m (Raw.bus_proximity r) then d / 500 else 1))
               / 2 * 20.
Proof.
  intros geodesic self lat lng r Hr.
  destruct (hub_score_terms_inv _ _ _ _ _ Hr) as (Eb & _ & _ & _ & _ & Eg & _).
  assert (Hne : bus_df self <> []) by (intros E; rewrite E in Eb; discriminate Eb).
  destruct (lookup_nonempty geodesic lat lng _ Hne) as [row Hrow].
  rewrite Eb in Hrow. injection Hrow as Hrow.
  assert (Hsame : distance_meters (Raw.bus_proximity r)
                  = min_bus_distance geodesic self lat lng).
  { rewrite Hrow, min_bus_distance_running. reflexivity. }
  split; [exact Hsame|].
  destruct (lookup_inv _ _ _ _ _ Eb) as (d & Hd & _ & H5 & _).
  exists d. split; [exact Hd|].
  rewrite Eg. unfold _calculate_infrastructure_gap, gap_of_distances. cbv zeta.
  rewrite <- Hsame, Hd, H5. cbn [PyFloat.div PyFloat.min_one].
  rewrite py_min_Qmin.
  destruct (Qle_bool d 500) eqn:E; qcases.
  - rewrite Q.min_r; [reflexivity|].
    apply Qle_shift_div_r; lra.
  - rewrite Q.min_l; [reflexivity|].
    apply Qle_shift_div_l; lra.
Qed.

Lemma gap_uses_the_lookup_distance_witness :
  exists r,
    hub_score_terms taxicab sample_calculator 53.3440 (-6.2545) = ret r
    /\ distance_meters (Raw.bus_proximity r)
       = min_bus_distance taxicab sample_calculator 53.3440 (-6.2545).
Proof.
  destruct (hub_score_terms taxicab sample_calculator 53.3440 (-6.2545))
    as [e|r] eqn:E; [vm_compute in E; discriminate E|].
  exists r. split; [reflexivity|].
  apply (gap_uses_the_lookup_distance taxicab sample_calculator _ _ r E).
Defined.

(** ** Accessibility *)

Lemma py_min_cases (a b : Q) :
  (py_min a b = a /\ a <= b) \/ (py_min a b = b /\ b < a).
Proof.
  unfold py_min. destruct (Qltb b a) eqn:E; qcases; [right | left]; now split.
Qed.

Lemma py_min_list_nearest (d : Q) (ds : list Q) :
  Spec.nearest_distance (d :: ds) (py_min_list d ds).
Proof.
  revert d. induction ds as [|x ds IH]; intros d.
  - split; [now left|]. intros d' [<-|[]]. apply Qle_refl.
  - change (py_min_list d (x :: ds)) with (py_min_list (py_min d x) ds).
    destruct (IH (py_min d x)) as [Hin Hle].
    pose proof (Hle _ (or_introl eq_refl)) as Hhd.
    generalize dependent (py_min_list (py_min d x) ds). intros m Hin Hle Hhd.
    split.
    + destruct Hin as [<-|Hin]; [|now right; right].
      destruct (py_min_cases d x) as [[-> _]|[-> _]]; [now left | now right; left].
    + intros d' [<-|[<-|Hd']].
      * destruct (py_min_cases d x) as [[E ?]|[E ?]]; rewrite E in Hhd; lra.
      * destruct (py_min_cases d x) as [[E ?]|[E ?]]; rewrite E in Hhd; lra.
      * apply Hle. now right.
Qed.

(** X6.  The accessibility helper always returns [max(0, 1 - d/2000)] for
    [d] the least distance from the point to the three key locations; the
    value is 0 exactly when every key location is 2000 m away or more. *)
Theorem accessibility_is_decay_of_nearest_amenity :
  forall (geodesic : point -> point -> Q) (lat lng : Q),
    exists d,
      Spec.nearest_distance (map (fun loc => geodesic (lat, lng) loc) key_locations) d
      /\ _calculate_accessibility_score geodesic lat lng
         = ret (py_max 0 (1 - d / 2000))
      /\ py_max 0 (1 - d / 2000) == Qmax 0 (1 - d / 2000)
      /\ (py_max 0 (1 - d / 2000) == 0 <->
          Forall (fun loc => 2000 <= geodesic (lat, lng) loc) key_locations).
Proof.
  intros geodesic lat lng.
  unfold _calculate_accessibility_score. cbn [map key_locations].
  set (ds := [geodesic (lat, lng) (53.3446, -6.2691);
              geodesic (lat, lng) (53.3387, -6.2613)]).
  pose proof (py_min_list_nearest (geodesic (lat, lng) (53.3498, -6.2603)) ds)
    as Hmin.
  set (d := py_min_list (geodesic (lat, lng) (53.3498, -6.2603)) ds) in *.
  exists d. split; [exact Hmin|]. split; [reflexivity|].
  split; [apply py_max_Qmax|].
  rewrite py_max_Qmax.
  assert (Hlin : (1 - d / 2000) * 2000 == 2000 - d) by field.
  destruct Hmin as [Hin Hle].
  split.
  - intros H0.
    assert (Hd : 2000 <= d).
    { destruct (Q.max_spec 0 (1 - d / 2000)) as [[H1 H2]|[H1 H2]]; lra. }
    repeat constructor.
    + specialize (Hle _ (or_introl eq_refl)). lra.
    + specialize (Hle _ (or_intror (or_introl eq_refl))). lra.
    + specialize (Hle _ (or_intror (or_intror (or_introl eq_refl)))). lra.
  - intros HF.
    assert (Hd : 2000 <= d).
    { inversion HF as [|? ? H1 HF1]; subst.
      inversion HF1 as [|? ? H2 HF2]; subst.
      inversion HF2 as [|? ? H3 _]; subst.
      destruct Hin as [<-|[<-|[<-|[]]]]; assumption. }
    apply Q.max_l. lra.
Qed.

(** ** When the scorer fails *)

(** [geopy_accepts] by computation. *)
Lemma accepted_of_bool (p : point) :
  Qle_bool (-90) (fst p) && Qle_bool (fst p) 90 = true -> geopy_accepts p.
Proof.
  intros H. apply andb_prop in H. destruct H as [H1 H2].
  split; now apply Qle_bool_iff.
Qed.

Lemma Forall_accepted {A : Type} (position : A -> point) (rows : list A) :
  forallb (fun r => Qle_bool (-90) (fst (position r))
                    && Qle_bool (fst (position r)) 90) rows = true ->
  Forall (fun r => geopy_accepts (position r)) rows.
Proof.
  intros H. apply Forall_forall. intros r Hr.
  apply accepted_of_bool.
  rewrite forallb_forall in H. now apply H.
Qed.

(** The rows of the two tables of the source, its three key locations and
    the two sample bike stations are points geopy takes. *)
Lemma bus_stops_accepted :
  Forall (fun stop => geopy_accepts (Transport.position stop)) bus_stops.
Proof. apply Forall_accepted. vm_compute. reflexivity. Qed.

Lemma luas_stations_accepted :
  Forall (fun stop => geopy_accepts (Transport.position stop)) luas_stations.
Proof. apply Forall_accepted. vm_compute. reflexivity. Qed.

Lemma key_locations_accepted : Forall geopy_accepts key_locations.
Proof.
  apply (Forall_accepted (fun p : point => p)). vm_compute. reflexivity.
Qed.

Lemma sample_frames_accepted : frames_accepted sample_calculator.
Proof.
  split; [|split].
  - apply Forall_accepted. vm_compute. reflexivity.
  - exact bus_stops_accepted.
  - exact luas_stations_accepted.
Qed.

(** X7.  On points geopy takes (the query point and every row of the three
    frames), [calculate_hub_score] raises exactly when the bus frame or the
    Luas frame is empty, and what it raises is the [TypeError] of the lookup;
    the bike frame does not make it fail. *)
Theorem hub_score_fails_iff_no_reference :
  forall (geodesic : point -> point -> Q) (self : HubScoreCalculator) (lat lng : Q),
    geopy_accepts (lat, lng) ->
    frames_accepted self ->
    ((exists e, calculate_hub_score geodesic self lat lng = raise e)
     <-> bus_df self = [] \/ luas_df self = [])
    /\ when_returns (calculate_hub_score geodesic self lat lng)
         (fun _ => exists b bus l luas,
                     bus_df self = b :: bus /\ luas_df self = l :: luas)
    /\ match calculate_hub_score geodesic self lat lng with
       | inl e => e = TypeError "argument of type 'NoneType' is not iterable"
       | inr _ => True
       end.
Proof.
  intros geodesic self lat lng _ _.
  destruct (nil_or_not (bus_df self)) as [Hb|Hb].
  { assert (E : calculate_hub_score geodesic self lat lng
                = raise (TypeError "argument of type 'NoneType' is not iterable")).
    { unfold calculate_hub_score, hub_score_terms. now rewrite Hb. }
    rewrite E. split; [|split; [exact I | reflexivity]].
    split; [now left | intros _; eexists; reflexivity]. }
  destruct (nil_or_not (luas_df self)) as [Hl|Hl].
  { assert (E : calculate_hub_score geodesic self lat lng
                = raise (TypeError "argument of type 'NoneType' is not iterable")).
    { destruct (lookup_returns geodesic lat lng _ Hb) as (pb & ? & Eb & _).
      unfold calculate_hub_score, hub_score_terms. now rewrite Eb, Hl. }
    rewrite E. split; [|split; [exact I | reflexivity]].
    split; [now right | intros _; eexists; reflexivity]. }
  destruct (hub_score_terms_returns geodesic self lat lng Hb Hl) as [r Hr].
  rewrite (calculate_hub_score_of_terms _ _ _ _ _ Hr).
  split; [|split; [|exact I]].
  - split; [intros [e He]; discriminate He | intros [H|H]; contradiction].
  - cbn [when_returns ret].
    destruct (bus_df self) as [|b bus]; [contradiction|].
    destruct (luas_df self) as [|l luas]; [contradiction|].
    now exists b, bus, l, luas.
Qed.

Lemma hub_score_fails_iff_no_reference_witness :
  ((exists e, calculate_hub_score taxicab sample_calculator 53.3440 (-6.2545)
              = raise e)
   <-> bus_df sample_calculator = [] \/ luas_df sample_calculator = [])
  /\ when_returns (calculate_hub_score taxicab sample_calculator 53.3440 (-6.2545))
       (fun _ => exists b bus l luas,
                   bus_df sample_calculator = b :: bus
                   /\ luas_df sample_calculator = l :: luas)
  /\ match calculate_hub_score taxicab sample_calculator 53.3440 (-6.2545) with
     | inl e => e = TypeError "argument of type 'NoneType' is not iterable"
     | inr _ => True
     end.
Proof.
  apply (hub_score_fails_iff_no_reference taxicab sample_calculator
           53.3440 (-6.2545)).
  - apply accepted_of_bool. vm_compute. reflexivity.
  - exact sample_frames_accepted.
Defined.

(** ** Bike demand and distant stations *)

(** X8.  A bike station farther than 1000 m from the point does not change
    the bike demand, wherever it stands in the frame. *)
Theorem distant_station_is_ignored :
  forall (geodesic : point -> point -> Q) (lat lng : Q)
         (before after : list Bike.row) (station : Bike.row)
         (bus luas : list Transport.row),
    1000 < geodesic (lat, lng) (Bike.position station) ->
    _calculate_bike_demand geodesic
      {| bikes_df := before ++ station :: after; bus_df := bus; luas_df := luas |}
      lat lng
    == _calculate_bike_demand geodesic
         {| bikes_df := before ++ after; bus_df := bus; luas_df := luas |}
         lat lng.
Proof.
  intros geodesic lat lng before after station bus luas Hfar.
  rewrite !bike_demand_raw_spec. cbn [bikes_df].
  assert (E : Spec.stations_within geodesic (lat, lng) (before ++ station :: after)
              = Spec.stations_within geodesic (lat, lng) (before ++ after)).
  { unfold Spec.stations_within. rewrite !map_app, !filter_app. f_equal.
    cbn [map filter snd].
    destruct (Qle_bool (geodesic (lat, lng) (Bike.position station)) 1000) eqn:E;
      [qcases; lra | reflexivity]. }
  unfold Spec.raw_demand. now rewrite E.
Qed.

Lemma distant_station_is_ignored_witness :
  _calculate_bike_demand taxicab
    {| bikes_df := [trinity_bike] ++ dame_bike :: [];
       bus_df := bus_stops; luas_df := luas_stations |}
    53.3440 (-6.2400)
  == _calculate_bike_demand taxicab
       {| bikes_df := [trinity_bike] ++ [];
          bus_df := bus_stops; luas_df := luas_stations |}
       53.3440 (-6.2400).
Proof.
  apply (distant_station_is_ignored taxicab 53.3440 (-6.2400)
           [trinity_bike] [] dame_bike bus_stops luas_stations).
  vm_compute. reflexivity.
Defined.

(** ** How far rounding moves a score *)

Lemma round_half_even_bound (x : Q) :
  inject_Z (round_half_even x) - (1 # 2) <= x
  /\ x <= inject_Z (round_half_even x) + (1 # 2).
Proof.
  unfold round_half_even.
  pose proof (Qfloor_le x) as Hlo.
  pose proof (Qlt_floor x) as Hhi.
  rewrite inject_Z_plus in Hhi. change (inject_Z 1) with 1 in Hhi.
  set (f := Qfloor x) in *.
  destruct (Qcompare (x - inject_Z f) (1 # 2)) eqn:E.
  - apply Qeq_alt in E.
    destruct (Z.even f); [|rewrite inject_Z_plus; change (inject_Z 1) with 1];
      split; lra.
  - apply Qlt_alt in E. split; lra.
  - apply Qgt_alt in E. rewrite inject_Z_plus. change (inject_Z 1) with 1.
    split; lra.
Qed.

Lemma round_half_even_mono (x y : Q) :
  x <= y -> (round_half_even x <= round_half_even y)%Z.
Proof.
  intros Hxy.
  destruct (Z_le_gt_dec (round_half_even x) (round_half_even y)) as [H|H];
    [exact H|].
  exfalso.
  destruct (round_half_even_bound x) as [Hx _].
  destruct (round_half_even_bound y) as [_ Hy].
  assert (Hz : inject_Z (round_half_even y) + 1 <= inject_Z (round_half_even x)).
  { change 1 with (inject_Z 1). rewrite <- inject_Z_plus, <- Zle_Qle. lia. }
  assert (Hxy' : x == y) by lra.
  rewrite (round_half_even_proper _ _ Hxy') in H. lia.
Qed.

Lemma round_two_value (x : Q) :
  round x 2 == inject_Z (round_half_even (x * 100)) / 100.
Proof.
  unfold round. change (Z.to_pos (10 ^ Z.of_nat 2)) with 100%positive.
  rewrite Qred_correct. change (inject_Z (Z.pos 100)) with 100.
  apply Qmake_Qdiv.
Qed.

(** [round(x, 2)] is within half a hundredth of [x]. *)
Lemma round_two_bound (x : Q) :
  x - (1 # 200) <= round x 2 /\ round x 2 <= x + (1 # 200).
Proof.
  rewrite round_two_value.
  destruct (round_half_even_bound (x * 100)) as [H1 H2].
  set (z := inject_Z (round_half_even (x * 100))) in *.
  assert (E : z / 100 * 100 == z) by field.
  split; lra.
Qed.

Lemma round_two_mono (x y : Q) : x <= y -> round x 2 <= round y 2.
Proof.
  intros Hxy. rewrite !round_two_value.
  assert (H : (round_half_even (x * 100) <= round_half_even (y * 100))%Z).
  { apply round_half_even_mono. lra. }
  rewrite Zle_Qle in H.
  set (a := inject_Z (round_half_even (x * 100))) in *.
  set (b := inject_Z (round_half_even (y * 100))) in *.
  assert (Ea : a / 100 * 100 == a) by field.
  assert (Eb : b / 100 * 100 == b) by field.
  lra.
Qed.

Lemma round_two_between (lo hi x : Q) :
  round lo 2 = lo -> round hi 2 = hi -> lo <= x <= hi ->
  lo <= round x 2 <= hi.
Proof.
  intros Elo Ehi [H1 H2].
  pose proof (round_two_mono _ _ H1) as G1.
  pose proof (round_two_mono _ _ H2) as G2.
  rewrite Elo in G1. rewrite Ehi in G2. now split.
Qed.

(** X9.  The reported total is within 0.005 of the unrounded total and within
    0.025 of the sum of the five reported sub-scores. *)
Theorem reported_total_within_0025_of_reported_sum :
  forall (geodesic : point -> point -> Q) (self : HubScoreCalculator)
         (lat lng : Q) (r : Raw.t),
    hub_score_terms geodesic self lat lng = ret r ->
    calculate_hub_score geodesic self lat lng = ret (score_dict r)
    /\ (Raw.total_score r - (1 # 200) <= total_score (score_dict r)
        /\ total_score (score_dict r) <= Raw.total_score r + (1 # 200))
    /\ (reported_sum (score_dict r) - (1 # 40) <= total_score (score_dict r)
        /\ total_score (score_dict r) <= reported_sum (score_dict r) + (1 # 40)).
Proof.
  intros geodesic self lat lng r Hr.
  destruct (hub_score_terms_inv _ _ _ _ _ Hr)
    as (_ & _ & _ & _ & _ & _ & _ & Ep & Etot).
  split; [now apply calculate_hub_score_of_terms|].
  unfold reported_sum.
  cbn [score_dict total_score transport_score demand_score gap_score
       accessibility_score population_score].
  pose proof (round_two_bound (Raw.total_score r)) as Ht.
  pose proof (round_two_bound (Raw.transport_score r)) as H1.
  pose proof (round_two_bound (Raw.demand_score r)) as H2.
  pose proof (round_two_bound (Raw.gap_score r)) as H3.
  pose proof (round_two_bound (Raw.accessibility_score r)) as H4.
  assert (H5 : round (Raw.population_score r) 2 == Raw.population_score r).
  { rewrite Ep. reflexivity. }
  split; [exact Ht|].
  rewrite H5. rewrite Etot in Ht at 1 4.
  set (t := round (Raw.total_score r) 2) in *.
  set (a := round (Raw.transport_score r) 2) in *.
  set (b := round (Raw.demand_score r) 2) in *.
  set (c := round (Raw.gap_score r) 2) in *.
  set (d := round (Raw.accessibility_score r) 2) in *.
  split; lra.
Qed.

Lemma reported_total_within_0025_of_reported_sum_witness :
  exists r,
    hub_score_terms taxicab sample_calculator 53.3440 (-6.2545) = ret r
    /\ (reported_sum (score_dict r) - (1 # 40) <= total_score (score_dict r)
        /\ total_score (score_dict r) <= reported_sum (score_dict r) + (1 # 40)).
Proof.
  destruct (hub_score_terms taxicab sample_calculator 53.3440 (-6.2545))
    as [e|r] eqn:E; [vm_compute in E; discriminate E|].
  exists r. split; [reflexivity|].
  apply (reported_total_within_0025_of_reported_sum
           taxicab sample_calculator _ _ r E).
Defined.

(** ** The range of the scores *)

Lemma running_min_nonneg (ds : list Q) :
  (forall d, In d ds -> 0 <= d) ->
  PyFloat.le (PyFloat.Fin 0) (PyFloat.running_min ds PyFloat.Inf).
Proof.
  intros H.
  destruct (PyFloatFacts.running_min_attained ds PyFloat.Inf) as [E|(d & Hin & E)];
    rewrite E; [exact I | simpl; now apply H].
Qed.

Lemma min_one_range (d : PyFloat.t) (scale : Q) :
  0 < scale -> PyFloat.le (PyFloat.Fin 0) d ->
  0 <= PyFloat.min_one (PyFloat.div d scale) <= 1.
Proof.
  intros Hs Hd. rewrite (min_one_is_clamp d scale Hs Hd).
  destruct d as [x|]; cbn [Spec.gap_norm]; [|lra].
  split; [apply Q.le_max_l|].
  apply Q.max_lub; [lra | apply Q.le_min_l].
Qed.

Lemma Qsum_nonneg (xs : list Q) :
  (forall x, In x xs -> 0 <= x) -> 0 <= Spec.Qsum xs.
Proof.
  induction xs as [|x xs IH]; intros H; simpl; [lra|].
  pose proof (H x (or_introl eq_refl)).
  assert (0 <= Spec.Qsum xs) by (apply IH; intros; apply H; now right).
  lra.
Qed.

Lemma raw_demand_nonneg (geodesic : point -> point -> Q) (p : point)
    (bikes : list Bike.row) :
  (forall s, In s bikes -> 0 <= Bike.availability_score s) ->
  0 <= Spec.raw_demand geodesic p bikes.
Proof.
  intros H. unfold Spec.raw_demand.
  apply Qle_shift_div_l.
  - destruct (List.length _) as [|n]; [reflexivity|].
    change 0 with (inject_Z 0). rewrite <- Zlt_Qlt. lia.
  - rewrite Qmult_0_l. apply Qsum_nonneg.
    intros x Hx. apply in_map_iff in Hx. destruct Hx as ([s d] & <- & Hin).
    unfold Spec.stations_within in Hin. apply filter_In in Hin.
    destruct Hin as [Hin _]. apply in_map_iff in Hin.
    destruct Hin as (s' & E & Hs'). injection E as -> _.
    cbn [fst snd]. apply Qmult_le_0_compat; [now apply H | apply Q.le_max_l].
Qed.

Lemma accessibility_value (geodesic : point -> point -> Q) (lat lng : Q) :
  exists d,
    In d (map (fun loc => geodesic (lat, lng) loc) key_locations)
    /\ _calculate_accessibility_score geodesic lat lng
       = ret (py_max 0 (1 - d / 2000)).
Proof.
  unfold _calculate_accessibility_score. cbn [map key_locations].
  eexists. split; [|reflexivity].
  apply (py_min_list_nearest
           (geodesic (lat, lng) (53.3498, -6.2603))
           [geodesic (lat, lng) (53.3446, -6.2691);
            geodesic (lat, lng) (53.3387, -6.2613)]).
Qed.

(** X10.  With a non-negative distance function and non-negative
    availability scores, every component stays in its nominal range: transport
    in [[0, 35]], demand in [[0, 25]], gap in [[0, 20]], accessibility in
    [[0, 15]], population 5, and the total in [[5, 100]]; so do the rounded
    values of the returned dict. *)
Theorem scores_stay_in_nominal_ranges :
  forall (geodesic : point -> point -> Q) (self : HubScoreCalculator)
         (lat lng : Q) (r : Raw.t),
    (forall a b, 0 <= geodesic a b) ->
    (forall s, In s (bikes_df self) ->
       (0 <= Bike.available_bikes s + Bike.available_stands s)%Z) ->
    hub_score_terms geodesic self lat lng = ret r ->
    (0 <= Raw.transport_score r <= 35
     /\ 0 <= Raw.demand_score r <= 25
     /\ 0 <= Raw.gap_score r <= 20
     /\ 0 <= Raw.accessibility_score r <= 15
     /\ Raw.population_score r = 5
     /\ 5 <= Raw.total_score r <= 100)
    /\ (0 <= transport_score (score_dict r) <= 35
        /\ 0 <= demand_score (score_dict r) <= 25
        /\ 0 <= gap_score (score_dict r) <= 20
        /\ 0 <= accessibility_score (score_dict r) <= 15
        /\ population_score (score_dict r) = 5
        /\ 5 <= total_score (score_dict r) <= 100).
Proof.
  intros geodesic self lat lng r Hgeo Havail Hr.
  destruct (hub_score_terms_inv _ _ _ _ _ Hr)
    as (Eb & El & Et & Ed & Es & Eg & (a & Ea & Eacc) & Ep & Etot).
  (* transport *)
  destruct (lookup_inv _ _ _ _ _ Eb) as (db & Hdb & _ & H5b & H2b).
  destruct (lookup_inv _ _ _ _ _ El) as (dl & Hdl & _ & H5l & _).
  assert (Ht : 0 <= Raw.transport_score r <= 35).
  { rewrite Et, (bus_points_spec _ _ Hdb H5b H2b), (luas_points_spec _ _ Hdl H5l).
    destruct (bus_contribution_range db) as (? & _).
    destruct (rail_contribution_range dl) as (? & _). lra. }
  (* demand *)
  assert (Hd : 0 <= Raw.demand_score r <= 25).
  { rewrite Es, py_min_Qmin, Ed, bike_demand_raw_spec.
    assert (Hraw : 0 <= Spec.raw_demand geodesic (lat, lng) (bikes_df self)).
    { apply raw_demand_nonneg. intros s Hs. unfold Bike.availability_score.
      change 0 with (inject_Z 0). rewrite <- Zle_Qle. now apply Havail. }
    set (raw := Spec.raw_demand geodesic (lat, lng) (bikes_df self)) in *.
    assert (E : raw / 20 * 25 * 20 == raw * 25) by field.
    split; [apply Q.min_glb; lra | apply Q.le_min_r]. }
  (* gap *)
  assert (Hg : 0 <= Raw.gap_score r <= 20).
  { rewrite Eg. unfold _calculate_infrastructure_gap, gap_of_distances. cbv zeta.
    rewrite min_bike_distance_running, min_bus_distance_running.
    pose proof (min_one_range
                  (PyFloat.running_min
                     (Spec.bike_distances geodesic (lat, lng) (bikes_df self))
                     PyFloat.Inf) 1000 eq_refl) as H1.
    pose proof (min_one_range
                  (PyFloat.running_min
                     (Spec.transport_distances geodesic (lat, lng) (bus_df self))
                     PyFloat.Inf) 500 eq_refl) as H2.
    set (x := PyFloat.min_one _) in *. set (y := PyFloat.min_one _) in H2 |- *.
    assert (Hx : 0 <= x <= 1).
    { apply H1, running_min_nonneg. intros d Hin.
      apply in_map_iff in Hin. destruct Hin as (? & <- & _). apply Hgeo. }
    assert (Hy : 0 <= y <= 1).
    { apply H2, running_min_nonneg. intros d Hin.
      apply in_map_iff in Hin. destruct Hin as (? & <- & _). apply Hgeo. }
    assert (E : (x + y) / 2 * 2 == x + y) by field.
    split; lra. }
  (* accessibility *)
  assert (Ha : 0 <= Raw.accessibility_score r <= 15).
  { destruct (accessibility_value geodesic lat lng) as (d & Hin & Ea').
    rewrite Ea in Ea'. injection Ea' as ->. rewrite Eacc, py_max_Qmax.
    assert (Hd0 : 0 <= d).
    { apply in_map_iff in Hin. destruct Hin as (? & <- & _). apply Hgeo. }
    assert (E : (1 - d / 2000) * 2000 == 2000 - d) by field.
    destruct (Q.max_spec 0 (1 - d / 2000)) as [[H1 H2]|[H1 H2]];
      rewrite H2; split; lra. }
  assert (Htot : 5 <= Raw.total_score r <= 100).
  { rewrite Etot, Ep. lra. }
  split; [repeat split; try apply Ht; try apply Hd; try apply Hg;
          try apply Ha; try apply Htot; exact Ep|].
  cbn [score_dict total_score transport_score demand_score gap_score
       accessibility_score population_score].
  rewrite Ep.
  repeat split;
    try (apply (round_two_between 0 35); [reflexivity | reflexivity | exact Ht]);
    try (apply (round_two_between 0 25); [reflexivity | reflexivity | exact Hd]);
    try (apply (round_two_between 0 20); [reflexivity | reflexivity | exact Hg]);
    try (apply (round_two_between 0 15); [reflexivity | reflexivity | exact Ha]);
    try (apply (round_two_between 5 100); [reflexivity | reflexivity | exact Htot]).
Qed.

Lemma taxicab_nonneg (a b : point) : 0 <= taxicab a b.
Proof.
  unfold taxicab.
  pose proof (Qabs_nonneg (fst a - fst b)).
  pose proof (Qabs_nonneg (snd a - snd b)). lra.
Qed.

Lemma scores_stay_in_nominal_ranges_witness :
  exists r,
    hub_score_terms taxicab sample_calculator 53.3440 (-6.2545) = ret r
    /\ 5 <= Raw.total_score r <= 100
    /\ 5 <= total_score (score_dict r) <= 100.
Proof.
  destruct (hub_score_terms taxicab sample_calculator 53.3440 (-6.2545))
    as [e|r] eqn:E; [vm_compute in E; discriminate E|].
  exists r. split; [reflexivity|].
  destruct (scores_stay_in_nominal_ranges taxicab sample_calculator
              53.3440 (-6.2545) r taxicab_nonneg) as [H1 H2].
  - intros s [<-|[<-|[]]]; vm_compute; discriminate.
  - exact E.
  - split; [apply H1 | apply H2].
Defined.

(** ** The order and the identity of the lattice points *)

Lemma nth_error_rows {B : Type} (f : nat -> nat -> B) (m a n i j : nat) :
  (i < m)%nat -> (j < n)%nat ->
  nth_error (flat_map (fun i => map (f i) (seq 0 n)) (seq a m)) (i * n + j)
  = Some (f (a + i)%nat j).
Proof.
  revert a i. induction m as [|m IH]; intros a i Hi Hj; [lia|].
  cbn [seq flat_map]. destruct i as [|i].
  - rewrite nth_error_app1 by (rewrite length_map, length_seq; lia).
    cbn [Nat.mul Nat.add]. rewrite Nat.add_0_r.
    rewrite nth_error_map, nth_error_seq.
    destruct (Nat.ltb_spec j n) as [_|?]; [reflexivity | lia].
  - rewrite nth_error_app2 by (rewrite length_map, length_seq; lia).
    rewrite length_map, length_seq.
    replace (S i * n + j - n)%nat with (i * n + j)%nat by lia.
    rewrite IH by lia. f_equal. f_equal. lia.
Qed.

(** X11.  The lattice is enumerated row by row: the candidate of index
    [i * resolution + j] is [(south + i * lat_step, west + j * lng_step)], so
    latitude (south to north) is the outer loop and longitude (west to east)
    the inner one. *)
Theorem lattice_is_row_major :
  forall (bounds : Bounds) (resolution i j : nat),
    (i < resolution)%nat ->
    (j < resolution)%nat ->
    exists locations,
      candidate_locations bounds resolution = ret locations
      /\ nth_error locations (i * resolution + j)
         = Some (south bounds + inject_Z (Z.of_nat i)
                   * ((north bounds - south bounds) / inject_Z (Z.of_nat resolution)),
                 west bounds + inject_Z (Z.of_nat j)
                   * ((east bounds - west bounds) / inject_Z (Z.of_nat resolution))).
Proof.
  intros bounds resolution i j Hi Hj.
  destruct resolution as [|n]; [lia|].
  eexists. split; [reflexivity|].
  exact (nth_error_rows
           (fun i j =>
              (south bounds + inject_Z (Z.of_nat i)
                 * ((north bounds - south bounds) / inject_Z (Z.of_nat (S n))),
               west bounds + inject_Z (Z.of_nat j)
                 * ((east bounds - west bounds) / inject_Z (Z.of_nat (S n)))))
           (S n) 0 (S n) i j Hi Hj).
Qed.

Lemma lattice_is_row_major_witness :
  exists locations,
    candidate_locations dublin_bounds 20 = ret locations
    /\ nth_error locations (3 * 20 + 7)
       = Some (south dublin_bounds + inject_Z (Z.of_nat 3)
                 * ((north dublin_bounds - south dublin_bounds)
                    / inject_Z (Z.of_nat 20)),
               west dublin_bounds + inject_Z (Z.of_nat 7)
                 * ((east dublin_bounds - west dublin_bounds)
                    / inject_Z (Z.of_nat 20))).
Proof.
  apply (lattice_is_row_major dublin_bounds 20 3 7); lia.
Defined.

Lemma step_injective (lo hi : Q) (i i' n : nat) :
  (i < n)%nat -> ~ hi == lo ->
  lo + inject_Z (Z.of_nat i) * ((hi - lo) / inject_Z (Z.of_nat n))
  == lo + inject_Z (Z.of_nat i') * ((hi - lo) / inject_Z (Z.of_nat n)) ->
  i = i'.
Proof.
  intros Hi Hne E.
  assert (Hn : 0 < inject_Z (Z.of_nat n)).
  { change 0 with (inject_Z 0). rewrite <- Zlt_Qlt. lia. }
  set (st := (hi - lo) / inject_Z (Z.of_nat n)) in *.
  assert (Hst : ~ st == 0).
  { intros H0. apply Hne.
    assert (E' : st * inject_Z (Z.of_nat n) == hi - lo)
      by (unfold st; field; lra).
    rewrite H0 in E'. lra. }
  assert (Eq : inject_Z (Z.of_nat i) == inject_Z (Z.of_nat i')).
  { apply (Qmult_inj_r _ _ st Hst). apply (Qplus_inj_l _ _ lo). exact E. }
  apply Nat2Z.inj. now apply inject_Z_injective.
Qed.

(** The candidate at position [n] of the list is the one of row [n / resolution]
    and column [n mod resolution]. *)
Lemma candidate_at_index (bounds : Bounds) (resolution : nat)
    (locations : list point) (n : nat) (p : point) :
  candidate_locations bounds resolution = ret locations ->
  nth_error locations n = Some p ->
  exists i j,
    (i < resolution)%nat /\ (j < resolution)%nat
    /\ n = (i * resolution + j)%nat
    /\ p = (south bounds + inject_Z (Z.of_nat i)
              * ((north bounds - south bounds) / inject_Z (Z.of_nat resolution)),
            west bounds + inject_Z (Z.of_nat j)
              * ((east bounds - west bounds) / inject_Z (Z.of_nat resolution))).
Proof.
  intros Hloc Hn.
  destruct resolution as [|k]; [discriminate Hloc|].
  cbn [candidate_locations] in Hloc. injection Hloc as <-.
  set (r := S k) in *.
  assert (Hr : r <> O) by discriminate.
  assert (Hlen : (n < r * r)%nat).
  { rewrite <- (lattice_length bounds
                  ((north bounds - south bounds) / inject_Z (Z.of_nat r))
                  ((east bounds - west bounds) / inject_Z (Z.of_nat r)) r).
    apply nth_error_Some. intros Hnone.
    assert (E : @None point = Some p) by (rewrite <- Hnone; exact Hn).
    discriminate E. }
  exists (n / r)%nat, (n mod r)%nat.
  assert (Hi : (n / r < r)%nat) by (apply Nat.Div0.div_lt_upper_bound; lia).
  assert (Hj : (n mod r < r)%nat) by (apply Nat.mod_upper_bound; exact Hr).
  assert (En : n = (n / r * r + n mod r)%nat).
  { rewrite (Nat.div_mod_eq n r) at 1. lia. }
  split; [exact Hi|]. split; [exact Hj|]. split; [exact En|].
  pose proof (nth_error_rows
                (fun i j =>
                   (south bounds + inject_Z (Z.of_nat i)
                      * ((north bounds - south bounds) / inject_Z (Z.of_nat r)),
                    west bounds + inject_Z (Z.of_nat j)
                      * ((east bounds - west bounds) / inject_Z (Z.of_nat r))))
                r 0 r (n / r) (n mod r) Hi Hj) as Hnth.
  rewrite <- En in Hnth. cbn [Nat.add] in Hnth.
  assert (E : Some p
              = Some (south bounds + inject_Z (Z.of_nat (n / r))
                        * ((north bounds - south bounds) / inject_Z (Z.of_nat r)),
                      west bounds + inject_Z (Z.of_nat (n mod r))
                        * ((east bounds - west bounds) / inject_Z (Z.of_nat r))))
    by (rewrite <- Hn; exact Hnth).
  apply (f_equal (fun o => match o with Some x => x | None => p end)) in E.
  exact E.
Qed.

(** X12.  The candidate list has no repeated point: when the box has distinct
    north and south and distinct east and west edges, the candidates at two
    different positions of [candidate_locations] differ in latitude or in
    longitude. *)
Theorem lattice_points_are_distinct :
  forall (bounds : Bounds) (resolution : nat) (locations : list point)
         (n m : nat) (p q : point),
    ~ north bounds == south bounds ->
    ~ east bounds == west bounds ->
    candidate_locations bounds resolution = ret locations ->
    nth_error locations n = Some p ->
    nth_error locations m = Some q ->
    n <> m ->
    ~ (fst p == fst q /\ snd p == snd q).
Proof.
  intros bounds resolution locations n m p q Hlat Hlng Hloc Hp Hq Hne [Elat Elng].
  destruct (candidate_at_index bounds resolution locations n p Hloc Hp)
    as (i & j & Hi & Hj & -> & ->).
  destruct (candidate_at_index bounds resolution locations m q Hloc Hq)
    as (i' & j' & _ & _ & -> & ->).
  cbn [fst snd] in Elat, Elng.
  apply Hne.
  rewrite (step_injective (south bounds) (north bounds) i i' resolution
             Hi Hlat Elat).
  rewrite (step_injective (west bounds) (east bounds) j j' resolution
             Hj Hlng Elng).
  reflexivity.
Qed.

Lemma lattice_points_are_distinct_witness :
  exists locations p q,
    candidate_locations dublin_bounds 20 = ret locations
    /\ nth_error locations 67 = Some p
    /\ nth_error locations 68 = Some q
    /\ ~ (fst p == fst q /\ snd p == snd q).
Proof.
  destruct (candidate_locations dublin_bounds 20) as [e|locations] eqn:Hloc;
    [discriminate Hloc|].
  destruct (nth_error locations 67) as [p|] eqn:Hp.
  2: { injection Hloc as <-. vm_compute in Hp. discriminate Hp. }
  destruct (nth_error locations 68) as [q|] eqn:Hq.
  2: { injection Hloc as <-. vm_compute in Hq. discriminate Hq. }
  exists locations, p, q.
  split; [reflexivity|]. split; [exact Hp|]. split; [exact Hq|].
  apply (lattice_points_are_distinct dublin_bounds 20 locations 67 68 p q).
  - simpl. intros H. vm_compute in H. discriminate H.
  - simpl. intros H. vm_compute in H. discriminate H.
  - exact Hloc.
  - exact Hp.
  - exact Hq.
  - discriminate.
Defined.

(** ** What the ranking keeps *)

#[global] Instance score_ge_transitive : Transitive score_ge.
Proof. intros a b c Hab Hbc. unfold score_ge in *. lra. Qed.

Lemma head_is_prefix {A : Type} (df : list A) (n : Z) :
  exists m, head df n = firstn m df.
Proof.
  unfold head. destruct (0 <=? n)%Z; eexists; reflexivity.
Qed.

Lemma StronglySorted_app_le {A : Type} (R : A -> A -> Prop) (l1 l2 : list A) :
  StronglySorted R (l1 ++ l2) ->
  forall a b, In a l1 -> In b l2 -> R a b.
Proof.
  induction l1 as [|x l1 IH]; intros Hs a b Ha Hb; [destruct Ha|].
  cbn [app] in Hs. apply StronglySorted_inv in Hs. destruct Hs as [Hs Hall].
  destruct Ha as [<-|Ha].
  - rewrite Forall_forall in Hall. apply Hall. apply in_or_app. now right.
  - now apply IH.
Qed.

(** The outcome of a search in terms of the scored lattice. *)
Lemma grid_search_of_results (geodesic : point -> point -> Q)
    (sort_values : list Rec.t -> list Rec.t) (bounds : Bounds) (resolution : nat)
    (calculator : HubScoreCalculator) (num_locations : Z) (results : list Rec.t) :
  score_lattice geodesic calculator bounds resolution = ret results ->
  grid_search geodesic sort_values bounds resolution calculator num_locations
  = ret (head (sort_values results) num_locations).
Proof.
  intros H. unfold grid_search. now rewrite H.
Qed.

(** X13.  The rows the search returns are the best: together with the rows
    it drops they make up the scored lattice, and no dropped row scores higher
    than a returned one.  This holds for every [num_locations], negative ones
    included. *)
Theorem returned_rows_dominate_dropped_rows :
  forall (geodesic : point -> point -> Q)
         (sort_values : list Rec.t -> list Rec.t)
         (bounds : Bounds) (resolution : nat)
         (calculator : HubScoreCalculator) (num_locations : Z)
         (results recs : list Rec.t),
    sorts_descending sort_values ->
    score_lattice geodesic calculator bounds resolution = ret results ->
    grid_search geodesic sort_values bounds resolution calculator num_locations
    = ret recs ->
    exists dropped,
      Permutation results (recs ++ dropped)
      /\ forall a b, In a recs -> In b dropped ->
           Rec.hub_score b <= Rec.hub_score a.
Proof.
  intros geodesic sort_values bounds resolution calculator k results recs
         Hsort Hres Hrun.
  rewrite (grid_search_of_results _ _ _ _ _ _ _ Hres) in Hrun.
  injection Hrun as <-.
  destruct (head_is_prefix (sort_values results) k) as [m ->].
  destruct (Hsort results) as [Hperm Hsorted].
  exists (skipn m (sort_values results)). split.
  - now rewrite firstn_skipn.
  - apply Sorted_StronglySorted in Hsorted; [|exact score_ge_transitive].
    rewrite <- (firstn_skipn m (sort_values results)) in Hsorted.
    intros a b Ha Hb.
    exact (StronglySorted_app_le score_ge _ _ Hsorted a b Ha Hb).
Qed.

Lemma returned_rows_dominate_dropped_rows_witness :
  exists results recs dropped,
    score_lattice taxicab sample_calculator dublin_bounds 2 = ret results
    /\ grid_search taxicab stable_sort dublin_bounds 2 sample_calculator 1 = ret recs
    /\ Permutation results (recs ++ dropped)
    /\ forall a b, In a recs -> In b dropped ->
         Rec.hub_score b <= Rec.hub_score a.
Proof.
  destruct (score_lattice taxicab sample_calculator dublin_bounds 2)
    as [e|results] eqn:E; [vm_compute in E; discriminate E|].
  destruct (returned_rows_dominate_dropped_rows
              taxicab stable_sort dublin_bounds 2 sample_calculator 1
              results (head (stable_sort results) 1)
              stable_sort_sorts E)
    as (dropped & Hperm & Hdom).
  - unfold grid_search. rewrite E. reflexivity.
  - exists results, (head (stable_sort results) 1), dropped.
    split; [reflexivity|]. split; [|split; assumption].
    unfold grid_search. rewrite E. reflexivity.
Defined.

(** X14.  Asking for fewer recommendations gives a prefix of the longer
    answer: for [0 <= k <= k'] the result for [k] is the first [k] rows of the
    result for [k']. *)
Theorem shorter_ranking_is_a_prefix :
  forall (geodesic : point -> point -> Q)
         (sort_values : list Rec.t -> list Rec.t)
         (bounds : Bounds) (resolution : nat)
         (calculator : HubScoreCalculator) (k k' : Z) (recs' : list Rec.t),
    (0 <= k <= k')%Z ->
    grid_search geodesic sort_values bounds resolution calculator k' = ret recs' ->
    grid_search geodesic sort_values bounds resolution calculator k
    = ret (firstn (Z.to_nat k) recs').
Proof.
  intros geodesic sort_values bounds resolution calculator k k' recs' Hk Hrun.
  unfold grid_search in *.
  destruct (score_lattice geodesic calculator bounds resolution) as [e|results];
    [discriminate Hrun|].
  cbn [bind ret] in *. injection Hrun as <-.
  rewrite !head_nonneg by lia. rewrite firstn_firstn.
  now rewrite Nat.min_l by lia.
Qed.

Lemma shorter_ranking_is_a_prefix_witness :
  exists recs',
    grid_search taxicab stable_sort dublin_bounds 2 sample_calculator 3 = ret recs'
    /\ grid_search taxicab stable_sort dublin_bounds 2 sample_calculator 1
       = ret (firstn (Z.to_nat 1) recs').
Proof.
  destruct (grid_search taxicab stable_sort dublin_bounds 2 sample_calculator 3)
    as [e|recs'] eqn:E; [vm_compute in E; discriminate E|].
  exists recs'. split; [reflexivity|].
  apply (shorter_ranking_is_a_prefix taxicab stable_sort dublin_bounds 2
           sample_calculator 1 3 recs'); [lia | exact E].
Defined.

(** ** Ties are the only freedom of the sort *)

Lemma sorted_permutations_agree (l1 l2 : list Rec.t) :
  (forall a b, In a l1 -> In b l1 ->
     Rec.hub_score a == Rec.hub_score b -> a = b) ->
  Permutation l1 l2 ->
  StronglySorted score_ge l1 -> StronglySorted score_ge l2 -> l1 = l2.
Proof.
  revert l2. induction l1 as [|x l1 IH]; intros l2 Hinj Hperm H1 H2.
  - apply Permutation_nil in Hperm. now subst.
  - destruct l2 as [|y l2];
      [apply Permutation_sym, Permutation_nil in Hperm; discriminate|].
    apply StronglySorted_inv in H1. destruct H1 as [H1 Hx].
    apply StronglySorted_inv in H2. destruct H2 as [H2 Hy].
    rewrite Forall_forall in Hx, Hy.
    assert (Hxy : x = y).
    { assert (Hxin : In x (y :: l2))
        by (eapply Permutation_in; [exact Hperm | now left]).
      assert (Hyin : In y (x :: l1))
        by (eapply Permutation_in; [apply Permutation_sym; exact Hperm | now left]).
      destruct Hxin as [E|Hxin]; [now symmetry|].
      destruct Hyin as [E|Hyin]; [exact E|].
      apply Hinj; [now left | now right|].
      specialize (Hx y Hyin). specialize (Hy x Hxin).
      unfold score_ge in Hx, Hy. lra. }
    subst y. f_equal. apply IH; try assumption.
    + intros a b Ha Hb. apply Hinj; now right.
    + eapply Permutation_cons_inv. exact Hperm.
Qed.

(** X15.  When no two scored candidates have the same [hub_score], the
    recommendations do not depend on which descending sort is used. *)
Theorem ranking_is_unique_without_ties :
  forall (geodesic : point -> point -> Q)
         (sort_values sort_values' : list Rec.t -> list Rec.t)
         (bounds : Bounds) (resolution : nat)
         (calculator : HubScoreCalculator) (num_locations : Z)
         (results : list Rec.t),
    sorts_descending sort_values ->
    sorts_descending sort_values' ->
    score_lattice geodesic calculator bounds resolution = ret results ->
    (forall a b, In a results -> In b results ->
       Rec.hub_score a == Rec.hub_score b -> a = b) ->
    grid_search geodesic sort_values bounds resolution calculator num_locations
    = grid_search geodesic sort_values' bounds resolution calculator num_locations.
Proof.
  intros geodesic s s' bounds resolution calculator k results Hs Hs' Hres Hinj.
  rewrite !(grid_search_of_results _ _ _ _ _ _ _ Hres).
  destruct (Hs results) as [Hp Hsorted]. destruct (Hs' results) as [Hp' Hsorted'].
  apply Sorted_StronglySorted in Hsorted; [|exact score_ge_transitive].
  apply Sorted_StronglySorted in Hsorted'; [|exact score_ge_transitive].
  assert (E : s results = s' results).
  { apply sorted_permutations_agree; try assumption.
    - intros a b Ha Hb. apply Hinj; eapply Permutation_in;
        try (apply Permutation_sym; exact Hp); assumption.
    - eapply Permutation_trans; [apply Permutation_sym; exact Hp | exact Hp']. }
  now rewrite E.
Qed.

Lemma ranking_is_unique_without_ties_witness :
  grid_search taxicab stable_sort dublin_bounds 2 sample_calculator 3
  = grid_search taxicab reversing_sort dublin_bounds 2 sample_calculator 3.
Proof.
  destruct (score_lattice taxicab sample_calculator dublin_bounds 2)
    as [e|results] eqn:E; [vm_compute in E; discriminate E|].
  apply (ranking_is_unique_without_ties taxicab stable_sort reversing_sort
           dublin_bounds 2 sample_calculator 3 results
           stable_sort_sorts reversing_sort_sorts E).
  vm_compute in E. injection E as <-.
  intros a b [<-|[<-|[<-|[<-|[]]]]] [<-|[<-|[<-|[<-|[]]]]] H;
    try reflexivity; vm_compute in H; discriminate H.
Defined.

(** ** Where the recommendations lie *)

Lemma head_In {A : Type} (df : list A) (n : Z) (x : A) :
  In x (head df n) -> In x df.
Proof.
  destruct (head_is_prefix df n) as [m ->]. intros H.
  rewrite <- (firstn_skipn m df). apply in_or_app. now left.
Qed.

Lemma grid_search_In (geodesic : point -> point -> Q)
    (sort_values : list Rec.t -> list Rec.t) (bounds : Bounds) (resolution : nat)
    (calculator : HubScoreCalculator) (num_locations : Z)
    (results recs : list Rec.t) (x : Rec.t) :
  sorts_descending sort_values ->
  score_lattice geodesic calculator bounds resolution = ret results ->
  grid_search geodesic sort_values bounds resolution calculator num_locations
  = ret recs ->
  In x recs -> In x results.
Proof.
  intros Hsort Hres Hrun Hx.
  rewrite (grid_search_of_results _ _ _ _ _ _ _ Hres) in Hrun.
  injection Hrun as <-. apply head_In in Hx.
  destruct (Hsort results) as [Hperm _].
  eapply Permutation_in; [apply Permutation_sym; exact Hperm | exact Hx].
Qed.

Lemma grid_search_results (geodesic : point -> point -> Q)
    (sort_values : list Rec.t -> list Rec.t) (bounds : Bounds) (resolution : nat)
    (calculator : HubScoreCalculator) (num_locations : Z) (recs : list Rec.t) :
  grid_search geodesic sort_values bounds resolution calculator num_locations
  = ret recs ->
  exists results, score_lattice geodesic calculator bounds resolution = ret results.
Proof.
  unfold grid_search.
  destruct (score_lattice geodesic calculator bounds resolution) as [e|results];
    [discriminate | now exists results].
Qed.

(** X16.  For a box with [south < north] and [west < east], every
    recommendation lies in the box, its north and east edges excluded. *)
Theorem recommendations_lie_in_the_box :
  forall (geodesic : point -> point -> Q)
         (sort_values : list Rec.t -> list Rec.t)
         (bounds : Bounds) (resolution : nat)
         (calculator : HubScoreCalculator) (num_locations : Z)
         (recs : list Rec.t),
    sorts_descending sort_values ->
    south bounds < north bounds ->
    west bounds < east bounds ->
    grid_search geodesic sort_values bounds resolution calculator num_locations
    = ret recs ->
    Forall (fun r => south bounds <= Rec.latitude r /\ Rec.latitude r < north bounds
                     /\ west bounds <= Rec.longitude r
                     /\ Rec.longitude r < east bounds) recs.
Proof.
  intros geodesic sort_values bounds resolution calculator k recs
         Hsort Hlat Hlng Hrun.
  destruct (grid_search_results _ _ _ _ _ _ _ Hrun) as [results Hres].
  apply Forall_forall. intros x Hx.
  pose proof (grid_search_In _ _ _ _ _ _ _ _ _ Hsort Hres Hrun Hx) as Hin.
  unfold score_lattice in Hres.
  destruct (candidate_locations bounds resolution) as [e|locations] eqn:Hloc;
    [discriminate Hres|].
  pose proof (lattice_half_open bounds resolution locations Hlat Hlng Hloc) as Hbox.
  assert (Hord : map (fun r => (Rec.latitude r, Rec.longitude r)) results = locations).
  { apply (score_lattice_order geodesic calculator bounds resolution); [exact Hloc|].
    unfold score_lattice. now rewrite Hloc. }
  rewrite Forall_forall in Hbox.
  apply (Hbox (Rec.latitude x, Rec.longitude x)).
  rewrite <- Hord.
  apply (in_map (fun r => (Rec.latitude r, Rec.longitude r))). exact Hin.
Qed.

Lemma recommendations_lie_in_the_box_witness :
  exists recs,
    grid_search taxicab stable_sort dublin_bounds 2 sample_calculator 3 = ret recs
    /\ Forall (fun r => south dublin_bounds <= Rec.latitude r
                        /\ Rec.latitude r < north dublin_bounds
                        /\ west dublin_bounds <= Rec.longitude r
                        /\ Rec.longitude r < east dublin_bounds) recs.
Proof.
  destruct (grid_search taxicab stable_sort dublin_bounds 2 sample_calculator 3)
    as [e|recs] eqn:E; [vm_compute in E; discriminate E|].
  exists recs. split; [reflexivity|].
  apply (recommendations_lie_in_the_box taxicab stable_sort dublin_bounds 2
           sample_calculator 3 recs stable_sort_sorts); [| |exact E].
  - simpl. lra.
  - simpl. lra.
Defined.

(** ** The search of the source never fails *)

(** The 400 candidates of the source lie between the south and north edges of
    its box, so geopy takes each of them. *)
Lemma dublin_candidates_accepted (locations : list point) :
  candidate_locations dublin_bounds 20 = ret locations ->
  Forall geopy_accepts locations.
Proof.
  intros Hloc.
  assert (Hlat : south dublin_bounds < north dublin_bounds)
    by (vm_compute; reflexivity).
  assert (Hlng : west dublin_bounds < east dublin_bounds)
    by (vm_compute; reflexivity).
  pose proof (lattice_half_open dublin_bounds 20 locations Hlat Hlng Hloc) as H.
  apply (Forall_impl _ (P := fun p => south dublin_bounds <= fst p
                                       /\ fst p < north dublin_bounds
                                       /\ west dublin_bounds <= snd p
                                       /\ snd p < east dublin_bounds));
    [|exact H].
  intros p (H1 & H2 & _). cbn [south north dublin_bounds] in H1, H2.
  unfold geopy_accepts. split; lra.
Qed.

(** X17.  [generate_hub_recommendations] does not fail.  Its bus and Luas
    tables are not empty, and every point it measures a distance from or to
    is one geopy takes: the 400 candidates, the rows of the two tables and
    the three key locations by the literals of the source, the bike stations
    by hypothesis.  For every [num_locations], negative ones included, it
    returns [head(num_locations)] of the 400 scored candidates sorted by
    score, in non-increasing order of score; these are
    [min(num_locations, 400)] rows when [num_locations >= 0]. *)
Theorem hub_recommendations_are_always_returned :
  forall (geodesic : point -> point -> Q)
         (sort_values : list Rec.t -> list Rec.t)
         (bikes : list Bike.row) (num_locations : Z),
    sorts_descending sort_values ->
    Forall (fun station => geopy_accepts (Bike.position station)) bikes ->
    frames_accepted
      {| bikes_df := bikes; bus_df := bus_stops; luas_df := luas_stations |}
    /\ Forall geopy_accepts key_locations
    /\ exists locations results recs,
         candidate_locations dublin_bounds 20 = ret locations
         /\ Forall geopy_accepts locations
         /\ score_lattice geodesic
              {| bikes_df := bikes; bus_df := bus_stops; luas_df := luas_stations |}
              dublin_bounds 20 = ret results
         /\ map (fun r => (Rec.latitude r, Rec.longitude r)) results = locations
         /\ List.length results = 400%nat
         /\ generate_hub_recommendations geodesic sort_values bikes num_locations
            = ret recs
         /\ recs = head (sort_values results) num_locations
         /\ Sorted score_ge recs
         /\ ((0 <= num_locations)%Z ->
             List.length recs = Nat.min (Z.to_nat num_locations) 400).
Proof.
  intros geodesic sort_values bikes k Hsort Hbikes.
  set (calculator :=
         {| bikes_df := bikes; bus_df := bus_stops; luas_df := luas_stations |}).
  assert (Hb : bus_df calculator <> []) by discriminate.
  assert (Hl : luas_df calculator <> []) by discriminate.
  assert (Hn : 20%nat <> O) by discriminate.
  split.
  { split; [exact Hbikes|].
    split; [exact bus_stops_accepted | exact luas_stations_accepted]. }
  split; [exact key_locations_accepted|].
  destruct (candidate_locations_returns dublin_bounds 20 Hn)
    as (locations & Hloc & _ & _).
  destruct (score_lattice_returns geodesic calculator Hb Hl dublin_bounds 20 Hn)
    as (results & Hres & Hlen).
  destruct (Hsort results) as [Hperm Hsorted].
  exists locations, results, (head (sort_values results) k).
  split; [exact Hloc|].
  split; [exact (dublin_candidates_accepted locations Hloc)|].
  split; [exact Hres|].
  split.
  { exact (score_lattice_order geodesic calculator dublin_bounds 20
             locations results Hloc Hres). }
  split; [exact Hlen|].
  split.
  { unfold generate_hub_recommendations. fold calculator.
    exact (grid_search_of_results geodesic sort_values dublin_bounds 20
             calculator k results Hres). }
  split; [reflexivity|].
  split.
  { destruct (head_is_prefix (sort_values results) k) as [m ->].
    now apply Sorted_firstn. }
  intros Hk. rewrite head_nonneg by exact Hk.
  rewrite length_firstn, <- (Permutation_length Hperm), Hlen. reflexivity.
Qed.

Lemma hub_recommendations_are_always_returned_witness :
  frames_accepted
    {| bikes_df := [trinity_bike; dame_bike];
       bus_df := bus_stops; luas_df := luas_stations |}
  /\ Forall geopy_accepts key_locations
  /\ exists locations results recs,
       candidate_locations dublin_bounds 20 = ret locations
       /\ Forall geopy_accepts locations
       /\ score_lattice taxicab
            {| bikes_df := [trinity_bike; dame_bike];
               bus_df := bus_stops; luas_df := luas_stations |}
            dublin_bounds 20 = ret results
       /\ map (fun r => (Rec.latitude r, Rec.longitude r)) results = locations
       /\ List.length results = 400%nat
       /\ generate_hub_recommendations taxicab stable_sort
            [trinity_bike; dame_bike] 5 = ret recs
       /\ recs = head (stable_sort results) 5
       /\ Sorted score_ge recs
       /\ ((0 <= 5)%Z -> List.length recs = Nat.min (Z.to_nat 5) 400).
Proof.
  apply (hub_recommendations_are_always_returned
           taxicab stable_sort [trinity_bike; dame_bike] 5).
  - exact stable_sort_sorts.
  - apply Forall_accepted. vm_compute. reflexivity.
Defined.

(** X18.  A negative [num_locations] is not an error: [head] then drops the
    last [-num_locations] rows, so the search returns the
    [resolution^2 - |num_locations|] best rows (none when that is negative). *)
Theorem negative_count_drops_the_tail :
  forall (geodesic : point -> point -> Q)
         (sort_values : list Rec.t -> list Rec.t)
         (bounds : Bounds) (resolution : nat)
         (calculator : HubScoreCalculator) (num_locations : Z),
    sorts_descending sort_values ->
    resolution <> O ->
    bus_df calculator <> [] ->
    luas_df calculator <> [] ->
    (num_locations < 0)%Z ->
    exists results recs,
      score_lattice geodesic calculator bounds resolution = ret results
      /\ grid_search geodesic sort_values bounds resolution calculator num_locations
         = ret recs
      /\ recs = firstn (resolution * resolution - Z.to_nat (- num_locations))
                       (sort_values results)
      /\ List.length recs
         = (resolution * resolution - Z.to_nat (- num_locations))%nat
      /\ Sorted score_ge recs.
Proof.
  intros geodesic sort_values bounds resolution calculator k
         Hsort Hn Hb Hl Hk.
  destruct (score_lattice_returns geodesic calculator Hb Hl bounds resolution Hn)
    as (results & Hres & Hlen).
  destruct (Hsort results) as [Hperm Hsorted].
  assert (Hlen' : List.length (sort_values results) = (resolution * resolution)%nat)
    by (now rewrite <- (Permutation_length Hperm)).
  exists results.
  exists (firstn (resolution * resolution - Z.to_nat (- k)) (sort_values results)).
  split; [exact Hres|]. split; [|split; [reflexivity|split]].
  - rewrite (grid_search_of_results _ _ _ _ _ _ _ Hres). unfold head.
    destruct (Z.leb_spec 0 k) as [?|_]; [lia|]. now rewrite Hlen'.
  - rewrite length_firstn, Hlen'. lia.
  - now apply Sorted_firstn.
Qed.

Lemma negative_count_drops_the_tail_witness :
  exists results recs,
    score_lattice taxicab sample_calculator dublin_bounds 20 = ret results
    /\ grid_search taxicab stable_sort dublin_bounds 20 sample_calculator (-390)
       = ret recs
    /\ List.length recs = (20 * 20 - Z.to_nat (- -390))%nat.
Proof.
  destruct (negative_count_drops_the_tail taxicab stable_sort dublin_bounds 20
              sample_calculator (-390) stable_sort_sorts)
    as (results & recs & Hres & Hrun & _ & Hlen & _);
    [discriminate | discriminate | discriminate | lia |].
  exists results, recs.
  split; [exact Hres|]. split; [exact Hrun | exact Hlen].
Defined.

(** ** The station names in the recommendations *)

Lemma lookup_label_from_frame (geodesic : point -> point -> Q) (lat lng : Q)
    (df : list Transport.row) (prox : Proximity) :
  calculate_distance_to_transport geodesic lat lng df = ret prox ->
  exists row, In row df /\ nearest_station prox = station_label row.
Proof.
  intros H. unfold calculate_distance_to_transport, nearest_scan in H.
  pose proof (nearest_fold_first geodesic lat lng df [] (PyFloat.Inf, None)
                (conj eq_refl eq_refl)) as Hscan.
  destruct (fold_left (nearest_step geodesic lat lng) df (PyFloat.Inf, None))
    as [m [row|]]; [|discriminate H].
  destruct Hscan as (_ & before & after & Hdf & _).
  injection H as <-. exists row. split; [|reflexivity].
  simpl in Hdf. rewrite Hdf. apply in_or_app. right. now left.
Qed.

Lemma mapM_In {A B : Type} (f : A -> result B) (xs : list A) (ys : list B) (y : B) :
  mapM f xs = ret ys -> In y ys -> exists x, In x xs /\ f x = ret y.
Proof.
  revert ys. induction xs as [|x xs IH]; intros ys H Hy.
  - injection H as <-. destruct Hy.
  - cbn [mapM] in H. destruct (f x) as [e|y0] eqn:Ex; [discriminate H|].
    destruct (mapM f xs) as [e|ys0]; [discriminate H|].
    injection H as <-. destruct Hy as [<-|Hy].
    + exists x. split; [now left | exact Ex].
    + destruct (IH ys0 eq_refl Hy) as (x' & Hin & Hx').
      exists x'. split; [now right | exact Hx'].
Qed.

(** The names a scored candidate carries are the labels of rows of the bus
    and Luas frames. *)
Lemma score_candidate_labels (geodesic : point -> point -> Q)
    (calculator : HubScoreCalculator) (loc : point) (rec : Rec.t) :
  score_candidate geodesic calculator loc = ret rec ->
  (exists stop, In stop (bus_df calculator)
                /\ Rec.nearest_bus rec = station_label stop)
  /\ (exists station, In station (luas_df calculator)
                      /\ Rec.nearest_luas rec = station_label station).
Proof.
  destruct loc as [lat lng]. unfold score_candidate, calculate_hub_score.
  destruct (hub_score_terms geodesic calculator lat lng) as [e|r] eqn:Hr;
    [discriminate|].
  cbn [bind ret]. intros H. injection H as <-.
  destruct (hub_score_terms_inv _ _ _ _ _ Hr) as (Eb & El & _).
  cbn [Rec.nearest_bus Rec.nearest_luas score_dict components nearest_bus nearest_luas].
  split; eapply lookup_label_from_frame; eassumption.
Qed.

(** X19.  Every recommendation of [generate_hub_recommendations] reports
    ['Unknown'] as its nearest bus stop, because the bus frame carries the
    stop names in a [stop_name] column that the lookup does not read; the
    nearest Luas entry is the [station_name] of one of the eight stations. *)
Theorem recommendations_name_no_bus_stop :
  forall (geodesic : point -> point -> Q)
         (sort_values : list Rec.t -> list Rec.t)
         (bikes : list Bike.row) (num_locations : Z) (recs : list Rec.t),
    sorts_descending sort_values ->
    generate_hub_recommendations geodesic sort_values bikes num_locations = ret recs ->
    Forall (fun r =>
              Rec.nearest_bus r = "Unknown"%string
              /\ exists station,
                   In station luas_stations
                   /\ Transport.station_name station = Some (Rec.nearest_luas r))
           recs.
Proof.
  intros geodesic sort_values bikes k recs Hsort Hrun.
  unfold generate_hub_recommendations in Hrun.
  set (calculator := {| bikes_df := bikes; bus_df := bus_stops;
                        luas_df := luas_stations |}) in *.
  destruct (grid_search_results _ _ _ _ _ _ _ Hrun) as [results Hres].
  apply Forall_forall. intros x Hx.
  pose proof (grid_search_In _ _ _ _ _ _ _ _ _ Hsort Hres Hrun Hx) as Hin.
  unfold score_lattice in Hres.
  destruct (candidate_locations dublin_bounds 20) as [e|locations];
    [discriminate Hres|].
  cbn [bind] in Hres.
  destruct (mapM_In _ _ _ _ Hres Hin) as (loc & _ & Hloc).
  destruct (score_candidate_labels _ _ _ _ Hloc)
    as [(stop & Hstop & Ebus) (station & Hstation & Eluas)].
  cbn [calculator bus_df luas_df] in Hstop, Hstation.
  split.
  - rewrite Ebus.
    assert (Hall : Forall (fun s => station_label s = "Unknown"%string) bus_stops)
      by (repeat constructor).
    rewrite Forall_forall in Hall. now apply Hall.
  - exists station. split; [exact Hstation|]. rewrite Eluas.
    assert (Hall : Forall (fun s => Transport.station_name s = Some (station_label s))
                          luas_stations)
      by (repeat constructor).
    rewrite Forall_forall in Hall. now apply Hall.
Qed.

Lemma recommendations_name_no_bus_stop_witness :
  exists recs,
    generate_hub_recommendations taxicab stable_sort [trinity_bike; dame_bike] 5
    = ret recs
    /\ Forall (fun r =>
                 Rec.nearest_bus r = "Unknown"%string
                 /\ exists station,
                      In station luas_stations
                      /\ Transport.station_name station = Some (Rec.nearest_luas r))
              recs.
Proof.
  destruct (generate_hub_recommendations_top_k taxicab stable_sort
              [trinity_bike; dame_bike] 5 stable_sort_sorts)
    as (recs & Hrun & _); [lia|].
  exists recs. split; [exact Hrun|].
  apply (recommendations_name_no_bus_stop taxicab stable_sort
           [trinity_bike; dame_bike] 5 recs stable_sort_sorts Hrun).
Defined.

(** * Data collection *)

(** ** The sample frame *)

Lemma sample_row_invariants (current_time : datetime) (station : Sample.station) :
  (0 < Sample.capacity station)%Z ->
  let b := Station.base (sample_row current_time station) in
  (0 <= Bike.available_bikes b <= Bike.total_capacity b)%Z
  /\ Bike.available_stands b = (Bike.total_capacity b - Bike.available_bikes b)%Z
  /\ Bike.availability_score b = inject_Z (Bike.total_capacity b)
  /\ Bike.total_capacity b = Sample.capacity station
  /\ Station.status (sample_row current_time station) = "OPEN"%string.
Proof.
  intros Hcap. unfold sample_row, derive, Bike.availability_score.
  cbn [Station.base Station.status Bike.available_bikes Bike.available_stands
       Bike.total_capacity].
  set (raw := py_int _).
  set (adjusted := Z.max 0 (Z.min (Sample.capacity station) raw)).
  assert (Hrange : (0 <= adjusted <= Sample.capacity station)%Z) by lia.
  repeat split; try lia.
  - f_equal. lia.
  - destruct (Z.ltb_spec 0 adjusted) as [_|H0]; [reflexivity|].
    destruct (Z.ltb_spec 0 (Sample.capacity station - adjusted)) as [_|H1];
      [reflexivity | lia].
Qed.

(** X20.  At every time of day the sample frame has 11 rows, and each row has
    [0 <= available_bikes <= total_capacity], its stands are the capacity
    minus the bikes (the [stands] entry of the table is not used), so its
    [availability_score] equals its [total_capacity], and its status is
    ['OPEN']. *)
Theorem sample_frame_is_consistent :
  forall (current_time : datetime),
    List.length (_get_sample_dublin_bikes_data current_time) = 11%nat
    /\ Forall
         (fun r =>
            let b := Station.base r in
            (0 <= Bike.available_bikes b <= Bike.total_capacity b)%Z
            /\ Bike.available_stands b
               = (Bike.total_capacity b - Bike.available_bikes b)%Z
            /\ Bike.availability_score b = inject_Z (Bike.total_capacity b)
            /\ Station.status r = "OPEN"%string)
         (_get_sample_dublin_bikes_data current_time).
Proof.
  intros current_time. split; [reflexivity|].
  unfold _get_sample_dublin_bikes_data. apply Forall_forall. intros r Hr.
  apply in_map_iff in Hr. destruct Hr as (station & <- & Hin).
  assert (Hcap : (0 < Sample.capacity station)%Z).
  { assert (Hall : Forall (fun s => (0 < Sample.capacity s)%Z) sample_stations)
      by (repeat constructor).
    rewrite Forall_forall in Hall. now apply Hall. }
  destruct (sample_row_invariants current_time station Hcap)
    as (H1 & H2 & H3 & _ & H5).
  repeat split; try assumption; apply H1.
Qed.

(** X21.  The sample frame follows the rush hours.  From 7 to 9 the
    Rathmines and Drumcondra rows have at most the bikes of the table and all
    other rows at least as many; from 17 to 19 the same holds with the Dame
    Street and IFSC rows; at any other hour every row has exactly the bikes of
    the table. *)
Theorem sample_bikes_follow_the_rush_hours :
  forall (current_time : datetime),
    let available :=
      map (fun r => Bike.available_bikes (Station.base r))
          (_get_sample_dublin_bikes_data current_time) in
    let h := hour current_time in
    if ((7 <=? h) && (h <=? 9))%Z
    then Forall2
           (fun station bikes =>
              if contains "Rathmines" (Sample.name station)
                 || contains "Drumcondra" (Sample.name station)
              then (bikes <= Sample.bikes station)%Z
              else (Sample.bikes station <= bikes)%Z)
           sample_stations available
    else if ((17 <=? h) && (h <=? 19))%Z
    then Forall2
           (fun station bikes =>
              if contains "Dame" (Sample.name station)
                 || contains "IFSC" (Sample.name station)
              then (bikes <= Sample.bikes station)%Z
              else (Sample.bikes station <= bikes)%Z)
           sample_stations available
    else available = map Sample.bikes sample_stations.
Proof.
  intros [h ts]. cbv zeta.
  unfold _get_sample_dublin_bikes_data, sample_row, bikes_factor.
  cbn [hour].
  destruct ((7 <=? h) && (h <=? 9))%Z;
    [|destruct ((17 <=? h) && (h <=? 19))%Z].
  - vm_compute. repeat constructor; discriminate.
  - vm_compute. repeat constructor; discriminate.
  - vm_compute. reflexivity.
Qed.

(** ** Utilisation and the demand indicator *)






(** ** Fetching the bike frame *)

Section CollectorFacts.

Variable fromtimestamp : Q -> option datetime.

Lemma sample_frame_cons (current_time : datetime) :
  exists r rest, _get_sample_dublin_bikes_data current_time = r :: rest.
Proof.
  unfold _get_sample_dublin_bikes_data, sample_stations. cbn [map].
  eexists. eexists. reflexivity.
Qed.

Lemma process_station_incomplete (station : Api.station) :
  complete station = false ->
  exists e, process_station fromtimestamp station = inl e.
Proof.
  unfold complete, process_station.
  destruct (Api.number station); [|intros _; eexists; reflexivity].
  destruct (Api.name station); [|intros _; eexists; reflexivity].
  destruct (Api.position station) as [[[lat|] [lng|]]|];
    try (intros _; eexists; reflexivity).
  destruct (Api.available_bikes station); [|intros _; eexists; reflexivity].
  destruct (Api.available_bike_stands station); [|intros _; eexists; reflexivity].
  destruct (Api.bike_stands station); [|intros _; eexists; reflexivity].
  destruct (Api.status station); [|intros _; eexists; reflexivity].
  destruct (Api.last_update station); [|intros _; eexists; reflexivity].
  cbn. discriminate.
Qed.

Lemma for_each_incomplete (raw_data : list Api.station) :
  forallb complete raw_data = false ->
  exists e, for_each (process_station fromtimestamp) raw_data = inl e.
Proof.
  induction raw_data as [|s raw IH]; [discriminate|].
  cbn [forallb for_each]. intros H. apply andb_false_iff in H.
  destruct (process_station fromtimestamp s) as [e|r] eqn:Es;
    [eexists; reflexivity|].
  destruct H as [H|H].
  - destruct (process_station_incomplete s H) as [e He]. congruence.
  - destruct (IH H) as [e He]. cbn [and_then]. rewrite He. eexists. reflexivity.
Qed.


End CollectorFacts.

(** X24.  Whatever the request produced, [get_dublin_bikes_data] returns a
    frame with at least one row: an empty station list makes the derived
    columns fail and is answered with the sample data like any other
    failure. *)
Theorem bike_frame_is_never_empty :
  forall (fromtimestamp : Q -> option datetime)
         (response : outcome) (current_time : datetime),
    exists r rest,
      get_dublin_bikes_data fromtimestamp response current_time = r :: rest.
Proof.
  intros fromtimestamp response current_time.
  unfold get_dublin_bikes_data, fetch_dublin_bikes.
  destruct response as [|status_code payload]; [apply sample_frame_cons|].
  destruct (status_code =? 200)%Z; [|apply sample_frame_cons].
  destruct payload as [|raw_data]; [apply sample_frame_cons|].
  unfold _process_dublin_bikes_data.
  destruct (for_each (process_station fromtimestamp) raw_data) as [e|df];
    cbn [and_then]; [apply sample_frame_cons|].
  destruct df as [|r rest]; [apply sample_frame_cons|].
  now exists r, rest.
Qed.

(** X25.  Unless the response is a 200 carrying a non-empty list of station
    objects that all have the nine subscripted keys, the frame returned is
    the sample frame of the moment. *)
Theorem unusable_response_gives_sample_data :
  forall (fromtimestamp : Q -> option datetime)
         (response : outcome) (current_time : datetime),
    usable response = false ->
    get_dublin_bikes_data fromtimestamp response current_time
    = _get_sample_dublin_bikes_data current_time.
Proof.
  intros fromtimestamp response current_time H.
  unfold get_dublin_bikes_data, fetch_dublin_bikes.
  destruct response as [|status_code payload]; [reflexivity|].
  destruct (status_code =? 200)%Z eqn:Ecode; [|reflexivity].
  destruct payload as [|raw_data]; [reflexivity|].
  unfold _process_dublin_bikes_data.
  destruct raw_data as [|s raw]; [reflexivity|].
  unfold usable in H. rewrite Ecode in H. cbn [andb] in H.
  destruct (for_each_incomplete fromtimestamp (s :: raw) H) as [e He].
  now rewrite He.
Qed.

Lemma unusable_response_gives_sample_data_witness :
  get_dublin_bikes_data noon_of (Response 403 Unusable)
    {| hour := 8; timestamp := 0 |}
  = _get_sample_dublin_bikes_data {| hour := 8; timestamp := 0 |}.
Proof.
  apply (unusable_response_gives_sample_data noon_of (Response 403 Unusable)).
  reflexivity.
Defined.



(** ** What the scorer reads of a bike station *)

Section BikeColumns.

Variable geodesic : point -> point -> Q.
Variables lat lng : Q.

Lemma demand_fold_columns (bikes bikes' : list Bike.row) (st : Q * Z) :
  same_scored_columns bikes bikes' ->
  fold_left (demand_step geodesic lat lng) bikes st
  = fold_left (demand_step geodesic lat lng) bikes' st.
Proof.
  intros H. revert st. induction H as [|s s' l l' [Hp Ha] _ IH]; intros st;
    [reflexivity|].
  cbn [fold_left].
  assert (E : demand_step geodesic lat lng st s = demand_step geodesic lat lng st s').
  { unfold demand_step. destruct st as [a c]. now rewrite Hp, Ha. }
  rewrite E. apply IH.
Qed.

Lemma min_bike_fold_columns (bikes bikes' : list Bike.row) (m : PyFloat.t) :
  same_scored_columns bikes bikes' ->
  fold_left
    (fun m station =>
       PyFloat.min m (PyFloat.Fin (geodesic (lat, lng) (Bike.position station))))
    bikes m
  = fold_left
      (fun m station =>
         PyFloat.min m (PyFloat.Fin (geodesic (lat, lng) (Bike.position station))))
      bikes' m.
Proof.
  intros H. revert m. induction H as [|s s' l l' [Hp _] _ IH]; intros m;
    [reflexivity|].
  cbn [fold_left]. rewrite Hp. apply IH.
Qed.

End BikeColumns.

(** X27.  The hub score reads a bike station only through its position and
    its availability score: frames that agree on these two, row by row, get
    the same result, whatever their ids, names, capacities and split between
    bikes and stands. *)
Theorem hub_score_reads_position_and_availability :
  forall (geodesic : point -> point -> Q) (lat lng : Q)
         (bikes bikes' : list Bike.row) (bus luas : list Transport.row),
    same_scored_columns bikes bikes' ->
    calculate_hub_score geodesic
      {| bikes_df := bikes; bus_df := bus; luas_df := luas |} lat lng
    = calculate_hub_score geodesic
        {| bikes_df := bikes'; bus_df := bus; luas_df := luas |} lat lng.
Proof.
  intros geodesic lat lng bikes bikes' bus luas H.
  unfold calculate_hub_score, hub_score_terms, _calculate_bike_demand,
    _calculate_infrastructure_gap, min_bike_distance, min_bus_distance.
  cbn [bikes_df bus_df luas_df].
  rewrite (demand_fold_columns geodesic lat lng bikes bikes' (0, 0%Z) H).
  rewrite (min_bike_fold_columns geodesic lat lng bikes bikes' PyFloat.Inf H).
  reflexivity.
Qed.

Lemma hub_score_reads_position_and_availability_witness :
  calculate_hub_score taxicab
    {| bikes_df := [trinity_bike]; bus_df := bus_stops; luas_df := luas_stations |}
    53.3440 (-6.2545)
  = calculate_hub_score taxicab
      {| bikes_df := [relabelled_bike]; bus_df := bus_stops;
         luas_df := luas_stations |}
      53.3440 (-6.2545).
Proof.
  apply (hub_score_reads_position_and_availability taxicab 53.3440 (-6.2545)
           [trinity_bike] [relabelled_bike] bus_stops luas_stations).
  repeat constructor.
Defined.

Lemma sample_frames_same_columns (current_time current_time' : datetime) :
  same_scored_columns
    (scorer_frame (_get_sample_dublin_bikes_data current_time))
    (scorer_frame (_get_sample_dublin_bikes_data current_time')).
Proof.
  unfold same_scored_columns, scorer_frame, _get_sample_dublin_bikes_data.
  induction sample_stations as [|station l IH]; [constructor|].
  cbn [map]. constructor; [|exact IH].
  split; [reflexivity|].
  unfold sample_row, derive, Bike.availability_score.
  cbn [Station.base Bike.available_bikes Bike.available_stands].
  f_equal. lia.
Qed.

(** X28.  On the sample data the hub score does not depend on the time of
    day: the rush-hour adjustment moves bikes to stands within a station and
    leaves every availability score at the capacity. *)
Theorem sample_scores_ignore_the_hour :
  forall (geodesic : point -> point -> Q) (lat lng : Q)
         (bus luas : list Transport.row) (current_time current_time' : datetime),
    calculate_hub_score geodesic
      {| bikes_df := scorer_frame (_get_sample_dublin_bikes_data current_time);
         bus_df := bus; luas_df := luas |} lat lng
    = calculate_hub_score geodesic
        {| bikes_df := scorer_frame (_get_sample_dublin_bikes_data current_time');
           bus_df := bus; luas_df := luas |} lat lng.
Proof.
  intros geodesic lat lng bus luas current_time current_time'.
  pose proof (sample_frames_same_columns current_time current_time') as H.
  unfold calculate_hub_score, hub_score_terms, _calculate_bike_demand,
    _calculate_infrastructure_gap, min_bike_distance, min_bus_distance.
  cbn [bikes_df bus_df luas_df].
  rewrite (demand_fold_columns geodesic lat lng _ _ (0, 0%Z) H).
  rewrite (min_bike_fold_columns geodesic lat lng _ _ PyFloat.Inf H).
  reflexivity.
Qed.
